(** * The Hedera node of n8n-nodes-hedera: a shallow embedding of
      [nodes/Hedera/Hedera.node.ts] and the properties of its [execute]. *)

From Stdlib Require Import String Ascii List ZArith NArith Lia Bool.
From Stdlib Require Import Strings.Byte.
Import ListNotations.
Local Open Scope string_scope.
Local Open Scope list_scope.
Local Set Warnings "-register-all".

(* ================================================================== *)
(** ** Part I: definitions                                             *)
(* ================================================================== *)

(** *** The JavaScript runtime: buffers, base64 and hex *)

(** A Node.js [Buffer] is a sequence of octets. *)
Definition Buffer := list byte.

(** Storing a number into a [Uint8Array] slot keeps its low eight bits. *)
Definition byte_of_N (n : N) : byte :=
  match Byte.of_N (N.land n 255) with
  | Some b => b
  | None => x00
  end.

Module Base64.

Definition alphabet : list ascii :=
  list_ascii_of_string
    "ABCDEFGHIJKLMNOPQRSTUVWXYZabcdefghijklmnopqrstuvwxyz0123456789+/".

(** [table[n]] of the encoder. *)
Definition table (n : N) : ascii := nth (N.to_nat n) alphabet "="%char.

Fixpoint index_of (c : ascii) (l : list ascii) (k : N) : option N :=
  match l with
  | [] => None
  | d :: l' => if Ascii.eqb c d then Some k else index_of c l' (N.succ k)
  end.

(** [unbase64(c)]: the sextet of a legal character; the decoder also takes
    the URL-safe characters [-] and [_]. *)
Definition unbase64 (c : ascii) : option N :=
  if Ascii.eqb c "-"%char then Some 62%N
  else if Ascii.eqb c "_"%char then Some 63%N
  else index_of c alphabet 0%N.

(** The four sextets the encoder takes from the octets [a b c]. *)
Definition sextet1 (a : byte) : N := N.shiftr (Byte.to_N a) 2.
Definition sextet2 (a b : byte) : N :=
  N.lor (N.shiftl (N.land (Byte.to_N a) 3) 4) (N.shiftr (Byte.to_N b) 4).
Definition sextet3 (b c : byte) : N :=
  N.lor (N.shiftl (N.land (Byte.to_N b) 15) 2) (N.shiftr (Byte.to_N c) 6).
Definition sextet4 (c : byte) : N := N.land (Byte.to_N c) 63.

(** The decoder reads the character of [n] back as [n]. *)
Definition legal (n : N) : bool :=
  match unbase64 (table n) with
  | Some m => N.eqb m n
  | None => false
  end.

(** [buf.toString('base64')]: three octets give four characters, the tail
    is padded with [=]. *)
Fixpoint encode (src : list byte) : string :=
  match src with
  | a :: b :: c :: rest =>
      String (table (sextet1 a))
        (String (table (sextet2 a b))
           (String (table (sextet3 b c))
              (String (table (sextet4 c)) (encode rest))))
  | [a; b] =>
      String (table (sextet1 a))
        (String (table (sextet2 a b))
           (String (table (N.shiftl (N.land (Byte.to_N b) 15) 2)) "="))
  | [a] =>
      String (table (sextet1 a))
        (String (table (N.shiftl (N.land (Byte.to_N a) 3) 4)) "==")
  | [] => EmptyString
  end.

(** The decoder skips every illegal character and stops at the first [=]. *)
Fixpoint sextets (s : string) : list N :=
  match s with
  | EmptyString => []
  | String c s' =>
      match unbase64 c with
      | Some lo => lo :: sextets s'
      | None => if Ascii.eqb c "="%char then [] else sextets s'
      end
  end.

(** Four sextets give three octets; a tail of two gives one octet, a tail
    of three gives two, a lone sextet gives none. *)
Fixpoint unpack (l : list N) : list byte :=
  match l with
  | s1 :: s2 :: s3 :: s4 :: rest =>
      byte_of_N (N.lor (N.shiftl (N.land s1 63) 2) (N.shiftr (N.land s2 48) 4))
      :: byte_of_N (N.lor (N.shiftl (N.land s2 15) 4) (N.shiftr (N.land s3 60) 2))
      :: byte_of_N (N.lor (N.shiftl (N.land s3 3) 6) (N.land s4 63))
      :: unpack rest
  | [s1; s2; s3] =>
      [ byte_of_N (N.lor (N.shiftl (N.land s1 63) 2) (N.shiftr (N.land s2 48) 4));
        byte_of_N (N.lor (N.shiftl (N.land s2 15) 4) (N.shiftr (N.land s3 60) 2)) ]
  | [s1; s2] =>
      [ byte_of_N (N.lor (N.shiftl (N.land s1 63) 2) (N.shiftr (N.land s2 48) 4)) ]
  | _ => []
  end.

(** [Buffer.from(s, 'base64')]; it never throws. *)
Definition decode (s : string) : Buffer := unpack (sextets s).

End Base64.

(** [Buffer.from(s, 'base64')] and [buf.toString('base64')]. *)
Definition Buffer_from_base64 (s : string) : Buffer := Base64.decode s.
Definition Buffer_toString_base64 (b : Buffer) : string := Base64.encode b.

Module Hex.

Definition digit (n : N) : ascii :=
  nth (N.to_nat n) (list_ascii_of_string "0123456789abcdef") "0"%char.

(** [buf.toString('hex')]: two lower-case digits for every octet. *)
Fixpoint encode (src : list byte) : string :=
  match src with
  | [] => EmptyString
  | a :: rest =>
      String (digit (N.shiftr (Byte.to_N a) 4))
        (String (digit (N.land (Byte.to_N a) 15)) (encode rest))
  end.

End Hex.

Definition Buffer_toString_hex (b : Buffer) : string := Hex.encode b.

(** All 256 octets, for checks by enumeration. *)
Definition all_bytes : list byte :=
  Eval vm_compute in
    flat_map (fun n => match Byte.of_nat n with Some b => [b] | None => [] end)
             (seq 0 256).

(** *** JavaScript values *)

(** A finite JavaScript [number], given by its decimal expansion
    [mantissa / 10^scale] (what JSON and the SDK's decimal arithmetic see of
    it); [NaN] and the infinities are left out. *)
Record number := { mantissa : Z; scale : nat }.

Definition number_of_Z (z : Z) : number := {| mantissa := z; scale := 0 |}.

(** [x <= 0] and [x < 0] on numbers. *)
Definition number_le0 (x : number) : Prop := (mantissa x <= 0)%Z.
Definition number_lt0 (x : number) : Prop := (mantissa x < 0)%Z.

(** The number of decimal digits behind the point once trailing zeros are
    dropped: [1.50] has one, [0.00000001] has eight. *)
Fixpoint decimals_aux (m : Z) (s : nat) : nat :=
  match s with
  | O => O
  | S s' => if (m mod 10 =? 0)%Z then decimals_aux (m / 10)%Z s' else S s'
  end.

Definition decimals (x : number) : nat := decimals_aux (mantissa x) (scale x).

(** [ToUint8]: truncate towards zero, then reduce modulo 256. *)
Definition ToUint8 (x : number) : byte :=
  byte_of_N (Z.to_N (Z.quot (mantissa x) (10 ^ Z.of_nat (scale x)) mod 256)%Z).

(** A value of type [any]. *)
Inductive Json :=
| JUndefined
| JNull
| JBool (b : bool)
| JNum (n : number)
| JStr (s : string)
| JArr (elements : list Json)
| JObj (fields : list (string * Json)).

Fixpoint lookup (key : string) (fields : list (string * Json)) : Json :=
  match fields with
  | [] => JUndefined
  | (k, v) :: rest => if (k =? key)%string then v else lookup key rest
  end.

(** [v?.key] for the property names the node reads ([data], [transBytes],
    [transBase64]): only an object can own one of them. *)
Definition opt_get (v : Json) (key : string) : Json :=
  match v with
  | JObj fields => lookup key fields
  | _ => JUndefined
  end.

Definition truthy (v : Json) : bool :=
  match v with
  | JUndefined | JNull => false
  | JBool b => b
  | JNum n => negb (mantissa n =? 0)%Z
  | JStr s => negb (s =? EmptyString)%string
  | JArr _ | JObj _ => true
  end.

Definition Array_isArray (v : Json) : bool :=
  match v with JArr _ => true | _ => false end.

(** The elements of a [number[]], when the value is one. *)
Fixpoint numbers_of (l : list Json) : option (list number) :=
  match l with
  | [] => Some []
  | JNum n :: rest => option_map (cons n) (numbers_of rest)
  | _ => None
  end.

(** [s || d] on strings. *)
Definition or_default (s d : string) : string :=
  if (s =? EmptyString)%string then d else s.

(** *** Errors *)

(** What the body of the item loop can throw: the node's own
    [NodeOperationError], or an [Error] of the SDK, the host or the runtime. *)
Inductive Thrown :=
| NodeOperationError (msg : string)
| Error (msg : string).

(** [(err as Error).message] *)
Definition message (err : Thrown) : string :=
  match err with NodeOperationError m | Error m => m end.

(** What [execute] rejects with: an error it did not catch, or the
    [NodeApiError] it wraps around a caught one. *)
Inductive ExecuteError :=
| Uncaught (err : Thrown)
| NodeApiError (cause : Thrown).

(** *** Amounts *)

(** Modelled from the spec: the Amount type, which is the SDK class [Hbar];
    the SDK is a dependency of the package and not among the sources.  An
    amount is an integer number of minor units (tinybars), built from a
    decimal major-unit value by scaling with [10^8]; a value with more than
    8 decimals is rejected, not truncated. *)
Record Hbar := { toTinybars : Z }.

Definition Hbar_new (amount : number) : Thrown + Hbar :=
  let t := (mantissa amount * 10 ^ 8)%Z in
  let d := (10 ^ Z.of_nat (scale amount))%Z in
  if (t mod d =? 0)%Z then inr {| toTinybars := (t / d)%Z |}
  else inl (Error "Hbar in tinybars contains decimals").

(** [hbar.negated()] *)
Definition negated (h : Hbar) : Hbar := {| toTinybars := - toTinybars h |}.

(** *** Records exchanged with the host and the SDK *)

(** Shape of the decrypted credential object; at run time the object or
    one of its string fields can be missing. *)
Record IHederaCredentials := {
  cred_accountId : option string;
  cred_privateKey : option string;
  cred_network : string
}.

Definition IDataObject := list (string * string).

Record INodeExecutionData := { json : IDataObject }.

(** The SDK's response and receipt objects, with their identifiers given by
    what [toString()] returns on them. *)
Record TransactionResponse := {
  transactionId : string;
  nodeId : option string;
  transactionHash : Buffer
}.

Record TransactionReceipt := {
  receipt_accountId : option string;
  receipt_status : string
}.

(** A falsy string field: missing or empty. *)
Definition falsy (s : option string) : bool :=
  match s with
  | None => true
  | Some s => (s =? EmptyString)%string
  end.

(** *** The two interfaces the node is written against *)

(** [@hashgraph/sdk], over the state [World] of everything outside the node
    (network, ledger, random source).  An operation that can throw returns a
    sum; an asynchronous or random one also takes and returns the world. *)
Class Sdk (World : Type) := {
  Client : Type;
  AccountId : Type;
  PrivateKey : Type;
  PublicKey : Type;
  (** a transaction object deserialized by [Transaction.fromBytes] *)
  Tx : Type;
  Client_forMainnet : Client;
  Client_forTestnet : Client;
  Client_forPreviewnet : Client;
  Client_setOperator : Client -> string -> string -> Thrown + Client;
  AccountId_fromString : string -> Thrown + AccountId;
  (** [a.compare(b)], which is 0 for two ids of the same account *)
  AccountId_compare : AccountId -> AccountId -> Z;
  PrivateKey_generateED25519 : World -> PrivateKey * World;
  PrivateKey_fromString : string -> Thrown + PrivateKey;
  PrivateKey_toString : PrivateKey -> string;
  publicKey : PrivateKey -> PublicKey;
  PublicKey_toString : PublicKey -> string;
  AccountCreateTransaction_execute :
    PublicKey -> Hbar -> Client -> World -> (Thrown + TransactionResponse) * World;
  TransferTransaction_execute :
    list (AccountId * Hbar) -> Client -> World -> (Thrown + TransactionResponse) * World;
  Transaction_execute :
    Tx -> Client -> World -> (Thrown + TransactionResponse) * World;
  getReceipt :
    TransactionResponse -> Client -> World -> (Thrown + TransactionReceipt) * World;
  Transaction_fromBytes : Buffer -> Thrown + Tx;
  Transaction_sign : Tx -> PrivateKey -> World -> (Thrown + Tx) * World;
  Transaction_toBytes : Tx -> Thrown + Buffer
}.

(** [IExecuteFunctions] of n8n-workflow.  [getNodeParameter] is split by the
    type the node casts its result to. *)
Class Host (World : Type) := {
  getInputData : list INodeExecutionData;
  getCredentials : string -> World -> (Thrown + option IHederaCredentials) * World;
  getNodeParameter_string : string -> nat -> Thrown + string;
  getNodeParameter_number : string -> nat -> Thrown + number;
  getNodeParameter_any : string -> nat -> Thrown + Json;
  continueOnFail : bool;
  prepareOutputData : list INodeExecutionData -> list (list INodeExecutionData);
  (** [Buffer.from(data)] on a [data] that is not an array of numbers,
      against the declared [number[]] *)
  Buffer_from_other : Json -> Thrown + Buffer
}.

(** [Buffer.from(data)] *)
Definition Buffer_from {World} `{Host World} (data : Json) : Thrown + Buffer :=
  match data with
  | JArr elements =>
      match numbers_of elements with
      | Some ns => inr (map ToUint8 ns)
      | None => Buffer_from_other data
      end
  | _ => Buffer_from_other data
  end.

(** *** The node *)

Section Node.

Context {World : Type} {sdk : Sdk World} {host : Host World}.

(** The transactions the node hands to [execute(client)]: the two it
    builds, and one deserialized from bytes. *)
Inductive Transaction :=
| AccountCreateTransaction (key : PublicKey) (initialBalance : Hbar)
| TransferTransaction (hbarTransfers : list (AccountId * Hbar))
| Deserialized (tx : Tx).

(** The calls that leave the node, in the order they are made. *)
Inductive Call :=
| CallGetCredentials (name : string)
| CallGetNodeParameter (name : string) (itemIndex : nat)
| CallGenerateED25519
| CallExecute (tx : Transaction) (client : Client)
| CallGetReceipt (response : TransactionResponse) (client : Client)
| CallSign (tx : Tx) (key : PrivateKey).

(** The calls that reach the Hedera network. *)
Definition is_network_call (c : Call) : bool :=
  match c with
  | CallExecute _ _ | CallGetReceipt _ _ => true
  | _ => false
  end.

(** One run of a piece of the node from a world: what it returned or
    threw, the world it left, and the calls it made. *)
Record Run (E A : Type) := mkRun {
  outcome : E + A;
  world_after : World;
  calls : list Call
}.
Arguments mkRun {E A}.
Arguments outcome {E A}.
Arguments world_after {E A}.
Arguments calls {E A}.

Definition M (E A : Type) : Type := World -> Run E A.

Definition ret {E A} (a : A) : M E A := fun w => mkRun (inr a) w [].

Definition throw {E A} (e : E) : M E A := fun w => mkRun (inl e) w [].

Definition bind {E A B} (m : M E A) (f : A -> M E B) : M E B :=
  fun w =>
    let r := m w in
    match outcome r with
    | inl e => mkRun (inl e) (world_after r) (calls r)
    | inr a =>
        let r' := f a (world_after r) in
        mkRun (outcome r') (world_after r') (calls r ++ calls r')
    end.

(** [try { m } catch (err) { h err }] *)
Definition try_catch {E E' A} (m : M E A) (h : E -> M E' A) : M E' A :=
  fun w =>
    let r := m w in
    match outcome r with
    | inl e =>
        let r' := h e (world_after r) in
        mkRun (outcome r') (world_after r') (calls r ++ calls r')
    | inr a => mkRun (inr a) (world_after r) (calls r)
    end.

(** A result computed without the world. *)
Definition lift {E A} (r : E + A) : M E A :=
  fun w => mkRun r w [].

(** A call that leaves the node. *)
Definition call {E A} (c : Call) (op : World -> (E + A) * World) : M E A :=
  fun w => let '(r, w') := op w in mkRun r w' [c].

(** An error thrown outside the loop's [try] leaves [execute] as it is. *)
Definition uncaught {A} (m : M Thrown A) : M ExecuteError A :=
  try_catch m (fun e => throw (Uncaught e)).

Notation "x <- m ;; k" := (bind m (fun x => k))
  (at level 100, m at next level, right associativity).

Definition getNodeParameter_s (name : string) (i : nat) : M Thrown string :=
  call (CallGetNodeParameter name i) (fun w => (getNodeParameter_string name i, w)).

Definition getNodeParameter_n (name : string) (i : nat) : M Thrown number :=
  call (CallGetNodeParameter name i) (fun w => (getNodeParameter_number name i, w)).

Definition getNodeParameter_a (name : string) (i : nat) : M Thrown Json :=
  call (CallGetNodeParameter name i) (fun w => (getNodeParameter_any name i, w)).

(** [tx.execute(client)] *)
Definition execute_tx (tx : Transaction) (client : Client) : M Thrown TransactionResponse :=
  call (CallExecute tx client)
    match tx with
    | AccountCreateTransaction key initialBalance =>
        AccountCreateTransaction_execute key initialBalance client
    | TransferTransaction hbarTransfers =>
        TransferTransaction_execute hbarTransfers client
    | Deserialized tx => Transaction_execute tx client
    end.

Definition get_receipt (response : TransactionResponse) (client : Client)
  : M Thrown TransactionReceipt :=
  call (CallGetReceipt response client) (getReceipt response client).

Definition generateED25519 : M Thrown PrivateKey :=
  call CallGenerateED25519
    (fun w => let '(k, w') := PrivateKey_generateED25519 w in (inr k, w')).

Definition sign (tx : Tx) (key : PrivateKey) : M Thrown Tx :=
  call (CallSign tx key) (Transaction_sign tx key).

(** What [tx.addHbarTransfer] does to the transfer list once the account is
    parsed.  The method belongs to the SDK, which is a dependency of the
    package and not among the sources: it goes through the entries, and the
    first one whose account compares equal takes the amount on top of its
    own; when there is none, a new entry is pushed at the end. *)
Fixpoint add_transfer (transfers : list (AccountId * Hbar))
    (account : AccountId) (amount : Hbar) : list (AccountId * Hbar) :=
  match transfers with
  | [] => [(account, amount)]
  | (a, h) :: rest =>
      if (AccountId_compare a account =? 0)%Z
      then (a, {| toTinybars := toTinybars h + toTinybars amount |}) :: rest
      else (a, h) :: add_transfer rest account amount
  end.

(** [tx.addHbarTransfer(accountId, amount)] with the account given as a
    string: the SDK parses it and adds the signed amount of that party to
    the list. *)
Definition addHbarTransfer (transfers : list (AccountId * Hbar))
    (accountId : string) (amount : Hbar) : Thrown + list (AccountId * Hbar) :=
  match AccountId_fromString accountId with
  | inl e => inl e
  | inr a => inr (add_transfer transfers a amount)
  end.

(** The sum of the signed per-party amounts of a transfer list. *)
Definition sum_transfers (transfers : list (AccountId * Hbar)) : Z :=
  fold_right (fun p acc => (toTinybars (snd p) + acc)%Z) 0%Z transfers.

(** The helper [getTransactionBytes] of the transaction branch. *)
Definition getTransactionBytes (transactionFormat : string) (i : nat) : M Thrown Buffer :=
  if (transactionFormat =? "base64")%string then
    txBase64 <- getNodeParameter_s "transaction" i ;;
    ret (Buffer_from_base64 txBase64)
  else
    bufferObj <- getNodeParameter_a "transactionBuffer" i ;;
    data <-
      (if truthy (opt_get bufferObj "data") then
         ret (opt_get bufferObj "data")
       else if truthy (opt_get (opt_get bufferObj "transBytes") "data") then
         ret (opt_get (opt_get bufferObj "transBytes") "data")
       else if truthy (opt_get (opt_get bufferObj "transBase64") "data") then
         ret (opt_get (opt_get bufferObj "transBase64") "data")
       else if Array_isArray bufferObj then
         ret bufferObj
       else
         throw (NodeOperationError
           "Invalid buffer object format. Expected object with data array or direct array.")) ;;
    lift (Buffer_from data).

(** The body of the [try] block for item [i]: it returns [result] or
    throws. *)
Definition processItem (accountId privKeyStr : string) (client : Client) (i : nat)
  : M Thrown IDataObject :=
  resource <- getNodeParameter_s "resource" i ;;
  if (resource =? "account")%string then
    operation <- getNodeParameter_s "accountOperation" i ;;
    if (operation =? "create")%string then
      initialBalance <- getNodeParameter_n "initialBalance" i ;;
      newPrivateKey <- generateED25519 ;;
      let newPublicKey := publicKey newPrivateKey in
      hbar <- lift (Hbar_new initialBalance) ;;
      txId <- execute_tx (AccountCreateTransaction newPublicKey hbar) client ;;
      receipt <- get_receipt txId client ;;
      match receipt_accountId receipt with
      | None =>
          throw (NodeOperationError
                   ("Account creation failed: " ++ receipt_status receipt))
      | Some newAccountId =>
          ret [ ("newAccountId", newAccountId);
                ("newAccountPublicKey", PublicKey_toString newPublicKey);
                ("newAccountPrivateKey", PrivateKey_toString newPrivateKey) ]
      end
    else if (operation =? "transfer")%string then
      recipientId <- getNodeParameter_s "recipientId" i ;;
      amount <- getNodeParameter_n "amount" i ;;
      hbarAmount <- lift (Hbar_new amount) ;;
      sender <- lift (addHbarTransfer [] accountId (negated hbarAmount)) ;;
      both <- lift (addHbarTransfer sender recipientId hbarAmount) ;;
      txResponse <- execute_tx (TransferTransaction both) client ;;
      receipt <- get_receipt txResponse client ;;
      ret [ ("status", receipt_status receipt);
            ("transactionId", or_default (transactionId txResponse) EmptyString) ]
    else
      throw (NodeOperationError ("Unsupported account operation: " ++ operation))
  else if (resource =? "transaction")%string then
    operation <- getNodeParameter_s "transactionOperation" i ;;
    transactionFormat <- getNodeParameter_s "transactionFormat" i ;;
    if (operation =? "sign")%string then
      txBuffer <- getTransactionBytes transactionFormat i ;;
      transaction <- lift (Transaction_fromBytes txBuffer) ;;
      key <- lift (PrivateKey_fromString privKeyStr) ;;
      signedTx <- sign transaction key ;;
      signedBytes <- lift (Transaction_toBytes signedTx) ;;
      ret [ ("signedTransaction", Buffer_toString_base64 signedBytes) ]
    else if (operation =? "submit")%string then
      txBuffer <- getTransactionBytes transactionFormat i ;;
      transaction <- lift (Transaction_fromBytes txBuffer) ;;
      txResponse <- execute_tx (Deserialized transaction) client ;;
      receipt <- get_receipt txResponse client ;;
      ret [ ("transactionId", transactionId txResponse);
            ("nodeId", match nodeId txResponse with
                       | Some n => or_default n EmptyString
                       | None => EmptyString
                       end);
            ("transactionHash", Buffer_toString_hex (transactionHash txResponse));
            ("status", receipt_status receipt) ]
    else if (operation =? "signAndSubmit")%string then
      txBuffer <- getTransactionBytes transactionFormat i ;;
      transaction <- lift (Transaction_fromBytes txBuffer) ;;
      key <- lift (PrivateKey_fromString privKeyStr) ;;
      signedTx <- sign transaction key ;;
      txResponse <- execute_tx (Deserialized signedTx) client ;;
      receipt <- get_receipt txResponse client ;;
      signedBytes <- lift (Transaction_toBytes signedTx) ;;
      ret [ ("transactionId", transactionId txResponse);
            ("nodeId", match nodeId txResponse with
                       | Some n => or_default n EmptyString
                       | None => EmptyString
                       end);
            ("transactionHash", Buffer_toString_hex (transactionHash txResponse));
            ("status", receipt_status receipt);
            ("signedTransaction", Buffer_toString_base64 signedBytes) ]
    else
      throw (NodeOperationError ("Unsupported transaction operation: " ++ operation))
  else
    throw (NodeOperationError ("Unsupported resource: " ++ resource)).

(** The record pushed for an item whose body threw, in continue-on-fail
    mode. *)
Definition error_record (err : Thrown) : INodeExecutionData :=
  {| json := [ ("error", message err) ] |}.

(** One turn of the [for] loop: the [try] around the body and its
    [catch]. *)
Definition iteration (accountId privKeyStr : string) (client : Client) (i : nat)
    (returnData : list INodeExecutionData) : M ExecuteError (list INodeExecutionData) :=
  try_catch
    (result <- processItem accountId privKeyStr client i ;;
     ret (returnData ++ [ {| json := result |} ]))
    (fun err =>
       if continueOnFail then ret (returnData ++ [ error_record err ])
       else throw (NodeApiError err)).

(** [for (let i = ...; i < items.length; i++)], with [remaining] turns to
    go from index [i]. *)
Fixpoint loop (accountId privKeyStr : string) (client : Client)
    (remaining i : nat) (returnData : list INodeExecutionData)
  : M ExecuteError (list INodeExecutionData) :=
  match remaining with
  | O => ret returnData
  | S remaining' =>
      returnData' <- iteration accountId privKeyStr client i returnData ;;
      loop accountId privKeyStr client remaining' (S i) returnData'
  end.

(** The client of the configured network, before [setOperator]. *)
Definition client_for (network : string) : Client :=
  if (network =? "mainnet")%string then Client_forMainnet
  else if (network =? "testnet")%string then Client_forTestnet
  else Client_forPreviewnet.

Definition execute : M ExecuteError (list (list INodeExecutionData)) :=
  let items := getInputData in
  creds <- uncaught (call (CallGetCredentials "hederaApi") (getCredentials "hederaApi")) ;;
  match creds with
  | None =>
      throw (Uncaught (NodeOperationError "Hedera credentials are not set up correctly."))
  | Some creds =>
      if falsy (cred_accountId creds) || falsy (cred_privateKey creds) then
        throw (Uncaught (NodeOperationError "Hedera credentials are not set up correctly."))
      else
        let accountId := match cred_accountId creds with Some a => a | None => EmptyString end in
        let privKeyStr := match cred_privateKey creds with Some k => k | None => EmptyString end in
        let network := cred_network creds in
        let client := client_for network in
        client <- uncaught (lift (Client_setOperator client accountId privKeyStr)) ;;
        returnData <- loop accountId privKeyStr client (length items) 0 [] ;;
        ret (prepareOutputData returnData)
  end.

(** *** Vocabulary of the statements *)

(** The runs of the bodies of [remaining] items from index [i] on, each
    from the world the one before it left. *)
Fixpoint item_runs (accountId privKeyStr : string) (client : Client)
    (remaining i : nat) (w : World) : list (Run Thrown IDataObject) :=
  match remaining with
  | O => []
  | S remaining' =>
      let r := processItem accountId privKeyStr client i w in
      r :: item_runs accountId privKeyStr client remaining' (S i) (world_after r)
  end.

(** The record of an item in continue-on-fail mode: its result, or the
    error record in its place. *)
Definition record_of (r : Run Thrown IDataObject) : INodeExecutionData :=
  match outcome r with
  | inl err => {| json := [ ("error", message err) ] |}
  | inr result => {| json := result |}
  end.

(** The set-up of [execute] went through from world [w]: the credentials
    came with a non-empty account id and private key, and the client took
    them as its operator; the loop then starts in world [w1]. *)
Definition configured (w : World) (accountId privKeyStr : string)
    (client : Client) (w1 : World) : Prop :=
  exists creds,
    getCredentials "hederaApi" w = (inr (Some creds), w1)
    /\ cred_accountId creds = Some accountId /\ accountId <> EmptyString
    /\ cred_privateKey creds = Some privKeyStr /\ privKeyStr <> EmptyString
    /\ Client_setOperator (client_for (cred_network creds)) accountId privKeyStr
       = inr client.

Definition no_network_call (cs : list Call) : Prop :=
  forall c, In c cs -> is_network_call c = false.

(** A run that failed before anything reached the network. *)
Definition rejected_locally {A} (r : Run Thrown A) : Prop :=
  (exists err, outcome r = inl err) /\ no_network_call (calls r).

End Node.

Arguments mkRun {World sdk E A}.
Arguments outcome {World sdk E A}.
Arguments world_after {World sdk E A}.
Arguments calls {World sdk E A}.

(** What [JSON.stringify] makes of a [Buffer]: the octets as an array of
    numbers, wrapped in an object. *)
Definition Buffer_toJSON (b : Buffer) : Json :=
  JObj [ ("type", JStr "Buffer");
         ("data", JArr (map (fun x => JNum (number_of_Z (Z.of_N (Byte.to_N x)))) b)) ].

(** *** A reference platform

    A small SDK and host to run the node on: the network takes every
    transaction and answers with fixed identifiers; the world counts the
    transactions it has taken. *)

Module Ref.

Definition is_digit (c : ascii) : bool :=
  let n := nat_of_ascii c in Nat.leb 48 n && Nat.leb n 57.

(** [shard.realm.num]: three non-empty runs of digits. *)
Fixpoint is_account_id (s : string) (seen : bool) (dots : nat) : bool :=
  match s with
  | EmptyString => seen && Nat.eqb dots 2
  | String c s' =>
      if is_digit c then is_account_id s' true dots
      else if Ascii.eqb c "."%char then seen && is_account_id s' false (S dots)
      else false
  end.

Definition response : TransactionResponse :=
  {| transactionId := "0.0.1001@1700000000.000000001";
     nodeId := Some "0.0.3";
     transactionHash := [x01; xab] |}.

Definition receipt : TransactionReceipt :=
  {| receipt_accountId := Some "0.0.2002"; receipt_status := "SUCCESS" |}.

Definition sdk : Sdk nat :=
  {| Client := string * option (string * string);
     AccountId := string;
     PrivateKey := string;
     PublicKey := string;
     Tx := Buffer * nat;
     Client_forMainnet := ("mainnet", None);
     Client_forTestnet := ("testnet", None);
     Client_forPreviewnet := ("previewnet", None);
     Client_setOperator := fun c a k =>
       if is_account_id a false 0 then inr (fst c, Some (a, k))
       else inl (Error "failed to parse entity id");
     AccountId_fromString := fun a =>
       if is_account_id a false 0 then inr a
       else inl (Error "failed to parse entity id");
     AccountId_compare := fun a b => if (a =? b)%string then 0%Z else 1%Z;
     PrivateKey_generateED25519 := fun w => ("302e0201", w);
     PrivateKey_fromString := fun k => inr k;
     PrivateKey_toString := fun k => k;
     publicKey := fun k => ("pub-" ++ k)%string;
     PublicKey_toString := fun k => k;
     AccountCreateTransaction_execute := fun _ _ _ w => (inr response, S w);
     TransferTransaction_execute := fun _ _ w => (inr response, S w);
     Transaction_execute := fun _ _ w => (inr response, S w);
     getReceipt := fun _ _ w => (inr receipt, w);
     Transaction_fromBytes := fun b =>
       match b with
       | [] => inl (Error "malformed transaction")
       | n :: body => inr (body, Byte.to_nat n)
       end;
     Transaction_sign := fun t _ w => (inr (fst t, S (snd t)), w);
     Transaction_toBytes := fun t =>
       inr (byte_of_N (N.of_nat (snd t)) :: fst t) |}.

(** The parameters of one item, by the type they are read at. *)
Record Request := {
  strings : list (string * string);
  numbers : list (string * number);
  anys : list (string * Json)
}.

Fixpoint find {A} (name : string) (l : list (string * A)) : Thrown + A :=
  match l with
  | [] => inl (Error "Could not get parameter")
  | (k, v) :: rest => if (k =? name)%string then inr v else find name rest
  end.

Definition param {A} (field : Request -> list (string * A))
    (requests : list Request) (name : string) (i : nat) : Thrown + A :=
  match nth_error requests i with
  | Some r => find name (field r)
  | None => inl (Error "Could not get parameter")
  end.

Definition host (creds : option IHederaCredentials) (continue : bool)
    (requests : list Request) : Host nat :=
  {| getInputData := map (fun _ => {| json := [] |}) requests;
     getCredentials := fun _ w => (inr creds, w);
     getNodeParameter_string := param strings requests;
     getNodeParameter_number := param numbers requests;
     getNodeParameter_any := param anys requests;
     continueOnFail := continue;
     prepareOutputData := fun records => [records];
     Buffer_from_other := fun _ =>
       inl (Error "The first argument must be of type string or an instance of Buffer") |}.

Definition creds : IHederaCredentials :=
  {| cred_accountId := Some "0.0.1001";
     cred_privateKey := Some "302e0202";
     cred_network := "testnet" |}.

Definition creds_without_key : IHederaCredentials :=
  {| cred_accountId := Some "0.0.1001";
     cred_privateKey := None;
     cred_network := "testnet" |}.

Definition client : string * option (string * string) :=
  ("testnet", Some ("0.0.1001", "302e0202")).

Definition create (initialBalance : number) : Request :=
  {| strings := [ ("resource", "account"); ("accountOperation", "create") ];
     numbers := [ ("initialBalance", initialBalance) ];
     anys := [] |}.

Definition transfer (recipientId : string) (amount : number) : Request :=
  {| strings := [ ("resource", "account"); ("accountOperation", "transfer");
                  ("recipientId", recipientId) ];
     numbers := [ ("amount", amount) ];
     anys := [] |}.

Definition transaction (operation : string) (b : Buffer) : Request :=
  {| strings := [ ("resource", "transaction"); ("transactionOperation", operation);
                  ("transactionFormat", "base64");
                  ("transaction", Buffer_toString_base64 b) ];
     numbers := [];
     anys := [ ("transactionBuffer", Buffer_toJSON b) ] |}.

Definition other (resource operation : string) : Request :=
  {| strings := [ ("resource", resource); ("accountOperation", operation);
                  ("transactionOperation", operation);
                  ("transactionFormat", "base64") ];
     numbers := [];
     anys := [] |}.

(** A batch of three whose second item names no known resource. *)
Definition batch : list Request :=
  [ create (number_of_Z 5);
    other "token" "mint";
    transfer "0.0.2002" {| mantissa := 15; scale := 1 |} ].

End Ref.

(** *** The description of the node *)

Module Description.

Inductive NodeConnectionType := Main.

Record INodePropertyOptions := {
  option_name : string;
  option_value : string;
  option_description : option string
}.

(** One entry of [properties]; an absent [noDataExpression] or [required]
    is [false], absent [displayOptions.show], [typeOptions] and [options]
    are empty. *)
Record INodeProperties := {
  displayName : string;
  name : string;
  type : string;
  noDataExpression : bool;
  show : list (string * list string);
  typeOptions : list (string * number);
  options : list INodePropertyOptions;
  default : Json;
  description : option string;
  required : bool
}.

Record INodeCredentialDescription := {
  credential_name : string;
  credential_required : bool
}.

Record INodeTypeDescription := {
  node_displayName : string;
  node_name : string;
  icon : string;
  group : list string;
  version : nat;
  node_description : string;
  defaults_name : string;
  inputs : list NodeConnectionType;
  outputs : list NodeConnectionType;
  credentials : list INodeCredentialDescription;
  properties : list INodeProperties
}.

Definition resource : INodeProperties :=
  {| displayName := "Resource";
     name := "resource";
     type := "options";
     noDataExpression := true;
     show := [];
     typeOptions := [];
     options :=
       [ {| option_name := "Account"; option_value := "account";
            option_description := None |};
         {| option_name := "Transaction"; option_value := "transaction";
            option_description := None |} ];
     default := JStr "account";
     description := Some "Resource type to operate on";
     required := false |}.

Definition accountOperation : INodeProperties :=
  {| displayName := "Operation";
     name := "accountOperation";
     type := "options";
     noDataExpression := false;
     show := [ ("resource", ["account"]) ];
     typeOptions := [];
     options :=
       [ {| option_name := "Create Account"; option_value := "create";
            option_description := Some "Create a new Hedera account" |};
         {| option_name := "Transfer HBAR"; option_value := "transfer";
            option_description := Some "Transfer HBAR to another account" |} ];
     default := JStr "create";
     description := None;
     required := false |}.

Definition recipientId : INodeProperties :=
  {| displayName := "Recipient Account ID";
     name := "recipientId";
     type := "string";
     noDataExpression := false;
     show := [ ("resource", ["account"]); ("accountOperation", ["transfer"]) ];
     typeOptions := [];
     options := [];
     default := JStr EmptyString;
     description := Some "Hedera Account ID to send HBAR to";
     required := true |}.

Definition amount : INodeProperties :=
  {| displayName := "Amount (HBAR)";
     name := "amount";
     type := "number";
     noDataExpression := false;
     show := [ ("resource", ["account"]); ("accountOperation", ["transfer"]) ];
     typeOptions := [ ("minValue", number_of_Z 0); ("numberPrecision", number_of_Z 8) ];
     options := [];
     default := JNum (number_of_Z 0);
     description := Some "Amount of HBAR to transfer";
     required := true |}.

Definition initialBalance : INodeProperties :=
  {| displayName := "Initial Balance (HBAR)";
     name := "initialBalance";
     type := "number";
     noDataExpression := false;
     show := [ ("resource", ["account"]); ("accountOperation", ["create"]) ];
     typeOptions := [];
     options := [];
     default := JNum (number_of_Z 0);
     description := Some "Initial HBAR funding for the new account";
     required := false |}.

Definition transactionOperation : INodeProperties :=
  {| displayName := "Operation";
     name := "transactionOperation";
     type := "options";
     noDataExpression := false;
     show := [ ("resource", ["transaction"]) ];
     typeOptions := [];
     options :=
       [ {| option_name := "Sign Transaction"; option_value := "sign";
            option_description := Some "Sign a transaction payload" |};
         {| option_name := "Submit Transaction"; option_value := "submit";
            option_description := Some "Submit a signed transaction to the network" |};
         {| option_name := "Sign and Submit Transaction"; option_value := "signAndSubmit";
            option_description := Some "Sign and submit a transaction in one step" |} ];
     default := JStr "sign";
     description := None;
     required := false |}.

Definition transactionFormat : INodeProperties :=
  {| displayName := "Transaction Format";
     name := "transactionFormat";
     type := "options";
     noDataExpression := false;
     show := [ ("resource", ["transaction"]);
               ("transactionOperation", ["sign"; "submit"; "signAndSubmit"]) ];
     typeOptions := [];
     options :=
       [ {| option_name := "Base64 String"; option_value := "base64";
            option_description := Some "Transaction as base64 encoded string" |};
         {| option_name := "Buffer Object"; option_value := "buffer";
            option_description := Some "Transaction as Buffer object with data array" |} ];
     default := JStr "base64";
     description := Some "Format of the transaction data";
     required := false |}.

Definition transaction : INodeProperties :=
  {| displayName := "Transaction (Base64)";
     name := "transaction";
     type := "string";
     noDataExpression := false;
     show := [ ("resource", ["transaction"]);
               ("transactionOperation", ["sign"; "submit"; "signAndSubmit"]);
               ("transactionFormat", ["base64"]) ];
     typeOptions := [];
     options := [];
     default := JStr EmptyString;
     description := Some "The transaction in base64-encoded form";
     required := true |}.

Definition transactionBuffer : INodeProperties :=
  {| displayName := "Transaction Buffer";
     name := "transactionBuffer";
     type := "json";
     noDataExpression := false;
     show := [ ("resource", ["transaction"]);
               ("transactionOperation", ["sign"; "submit"; "signAndSubmit"]);
               ("transactionFormat", ["buffer"]) ];
     typeOptions := [];
     options := [];
     default := JStr EmptyString;
     description :=
       Some "The transaction as Buffer object (e.g., from transBytes or transBase64 field)";
     required := true |}.

(** [description] of the class [Hedera]. *)
Definition node : INodeTypeDescription :=
  {| node_displayName := "Hedera";
     node_name := "hedera";
     icon := "file:hedera.svg";
     group := [ "transform" ];
     version := 1;
     node_description := "Interact with the Hedera Hashgraph network";
     defaults_name := "Hedera";
     inputs := [ Main ];
     outputs := [ Main ];
     credentials := [ {| credential_name := "hederaApi"; credential_required := true |} ];
     properties :=
       [ resource; accountOperation; recipientId; amount; initialBalance;
         transactionOperation; transactionFormat; transaction; transactionBuffer ] |}.

(** The property of a given [name], if the description has one. *)
Definition property (n : string) : option INodeProperties :=
  find (fun p => (name p =? n)%string) (properties node).

(** The values the description offers for an options property. *)
Definition offered (n : string) : list string :=
  match property n with
  | Some p => map option_value (options p)
  | None => []
  end.

(** [displayOptions.show] holds under the parameter values [values]: each
    listed parameter has one of the listed values. *)
Definition displayed (values : string -> option string) (p : INodeProperties) : bool :=
  forallb
    (fun entry : string * list string =>
       match values (fst entry) with
       | Some v => existsb (String.eqb v) (snd entry)
       | None => false
       end)
    (show p).

End Description.

(** *** The first version of the node

    The earlier [Hedera.node.ts] that the repository also carries: the same
    [execute], whose transaction branch knows one operation, [sign], and
    reads the transaction as a base64 string only. *)

Section Earlier.

Context {World : Type} {sdk : Sdk World} {host : Host World}.

Notation "x <- m ;; k" := (bind m (fun x => k))
  (at level 100, m at next level, right associativity).

(** The body of the [try] block of the earlier loop. *)
Definition processItem_v1 (accountId privKeyStr : string) (client : Client) (i : nat)
  : M Thrown IDataObject :=
  resource <- getNodeParameter_s "resource" i ;;
  if (resource =? "account")%string then
    operation <- getNodeParameter_s "accountOperation" i ;;
    if (operation =? "create")%string then
      initialBalance <- getNodeParameter_n "initialBalance" i ;;
      newPrivateKey <- generateED25519 ;;
      let newPublicKey := publicKey newPrivateKey in
      hbar <- lift (Hbar_new initialBalance) ;;
      txId <- execute_tx (AccountCreateTransaction newPublicKey hbar) client ;;
      receipt <- get_receipt txId client ;;
      match receipt_accountId receipt with
      | None =>
          throw (NodeOperationError
                   ("Account creation failed: " ++ receipt_status receipt))
      | Some newAccountId =>
          ret [ ("newAccountId", newAccountId);
                ("newAccountPublicKey", PublicKey_toString newPublicKey);
                ("newAccountPrivateKey", PrivateKey_toString newPrivateKey) ]
      end
    else if (operation =? "transfer")%string then
      recipientId <- getNodeParameter_s "recipientId" i ;;
      amount <- getNodeParameter_n "amount" i ;;
      hbarAmount <- lift (Hbar_new amount) ;;
      sender <- lift (addHbarTransfer [] accountId (negated hbarAmount)) ;;
      both <- lift (addHbarTransfer sender recipientId hbarAmount) ;;
      txResponse <- execute_tx (TransferTransaction both) client ;;
      receipt <- get_receipt txResponse client ;;
      ret [ ("status", receipt_status receipt);
            ("transactionId", or_default (transactionId txResponse) EmptyString) ]
    else
      throw (NodeOperationError ("Unsupported account operation: " ++ operation))
  else if (resource =? "transaction")%string then
    operation <- getNodeParameter_s "transactionOperation" i ;;
    if (operation =? "sign")%string then
      txBase64 <- getNodeParameter_s "transaction" i ;;
      let txBuffer := Buffer_from_base64 txBase64 in
      transaction <- lift (Transaction_fromBytes txBuffer) ;;
      key <- lift (PrivateKey_fromString privKeyStr) ;;
      signedTx <- sign transaction key ;;
      signedBytes <- lift (Transaction_toBytes signedTx) ;;
      ret [ ("signedTransaction", Buffer_toString_base64 signedBytes) ]
    else
      throw (NodeOperationError ("Unsupported transaction operation: " ++ operation))
  else
    throw (NodeOperationError ("Unsupported resource: " ++ resource)).

Definition iteration_v1 (accountId privKeyStr : string) (client : Client) (i : nat)
    (returnData : list INodeExecutionData) : M ExecuteError (list INodeExecutionData) :=
  try_catch
    (result <- processItem_v1 accountId privKeyStr client i ;;
     ret (returnData ++ [ {| json := result |} ]))
    (fun err =>
       if continueOnFail then ret (returnData ++ [ error_record err ])
       else throw (NodeApiError err)).

Fixpoint loop_v1 (accountId privKeyStr : string) (client : Client)
    (remaining i : nat) (returnData : list INodeExecutionData)
  : M ExecuteError (list INodeExecutionData) :=
  match remaining with
  | O => ret returnData
  | S remaining' =>
      returnData' <- iteration_v1 accountId privKeyStr client i returnData ;;
      loop_v1 accountId privKeyStr client remaining' (S i) returnData'
  end.

Definition execute_v1 : M ExecuteError (list (list INodeExecutionData)) :=
  let items := getInputData in
  creds <- uncaught (call (CallGetCredentials "hederaApi") (getCredentials "hederaApi")) ;;
  match creds with
  | None =>
      throw (Uncaught (NodeOperationError "Hedera credentials are not set up correctly."))
  | Some creds =>
      if falsy (cred_accountId creds) || falsy (cred_privateKey creds) then
        throw (Uncaught (NodeOperationError "Hedera credentials are not set up correctly."))
      else
        let accountId := match cred_accountId creds with Some a => a | None => EmptyString end in
        let privKeyStr := match cred_privateKey creds with Some k => k | None => EmptyString end in
        let network := cred_network creds in
        let client := client_for network in
        client <- uncaught (lift (Client_setOperator client accountId privKeyStr)) ;;
        returnData <- loop_v1 accountId privKeyStr client (length items) 0 [] ;;
        ret (prepareOutputData returnData)
  end.

(** An item the first version knows: anything but a transaction item, or a
    transaction item that is given as base64 and is not one of the two
    operations added later. *)
Definition known_to_v1 (i : nat) : Prop :=
  getNodeParameter_string "resource" i <> inr "transaction"
  \/ (getNodeParameter_string "transactionOperation" i <> inr "submit"
      /\ getNodeParameter_string "transactionOperation" i <> inr "signAndSubmit"
      /\ getNodeParameter_string "transactionFormat" i = inr "base64").

End Earlier.

(** *** Vocabulary of the further statements *)

Section Vocabulary.

Context {World : Type} {sdk : Sdk World} {host : Host World}.

Definition is_execute (c : Call) : bool :=
  match c with
  | CallExecute _ _ => true
  | _ => false
  end.

(** The number of transactions handed to [execute(client)] among calls. *)
Definition executes (cs : list Call) : nat := length (filter is_execute cs).

(** The value an options parameter of item [i] has, when the read returns. *)
Definition item_value (i : nat) (key : string) : option string :=
  match getNodeParameter_string key i with
  | inr v => Some v
  | inl _ => None
  end.

(** Item [i] keeps to the description: each of its options parameters,
    when it can be read, holds one of the offered values. *)
Definition conforming (i : nat) : Prop :=
  forall key v,
    In key [ "resource"; "accountOperation"; "transactionOperation"; "transactionFormat" ] ->
    getNodeParameter_string key i = inr v ->
    In v (Description.offered key).

(** A call an item of index [i] may make with the client [client]: a read
    of its own parameters, a key generation, a signature, or a network call
    through that client. *)
Definition own_call (client : Client) (i : nat) (c : Call) : Prop :=
  match c with
  | CallGetCredentials _ => False
  | CallGetNodeParameter _ j => j = i
  | CallExecute _ cl | CallGetReceipt _ cl => cl = client
  | CallGenerateED25519 | CallSign _ _ => True
  end.

(** A call a batch of [n] items may make with the client [client]. *)
Definition batch_call (client : Client) (n : nat) (c : Call) : Prop :=
  match c with
  | CallGetCredentials credential =>
      In credential
         (map Description.credential_name (Description.credentials Description.node))
  | CallGetNodeParameter _ j => j < n
  | CallExecute _ cl | CallGetReceipt _ cl => cl = client
  | CallGenerateED25519 | CallSign _ _ => True
  end.

(** The world the last of [runs] left, [w] when there is none. *)
Definition world_after_runs {E A} (w : World) (runs : list (Run E A)) : World :=
  fold_left (fun _ r => world_after r) runs w.

End Vocabulary.

(** The octets of a buffer as an array of numbers. *)
Definition octets (b : Buffer) : Json :=
  JArr (map (fun x => JNum (number_of_Z (Z.of_N (Byte.to_N x)))) b).

(** *** More items for the reference platform *)

Module Sample.

(** A transaction item in buffer mode. *)
Definition buffered (operation : string) (bufferObj : Json) : Ref.Request :=
  {| Ref.strings := [ ("resource", "transaction"); ("transactionOperation", operation);
                      ("transactionFormat", "buffer") ];
     Ref.numbers := [];
     Ref.anys := [ ("transactionBuffer", bufferObj) ] |}.

(** A platform like the reference one whose network has left out the account
    id of the receipt. *)
Definition sdk_without_account : Sdk nat :=
  {| Client := string * option (string * string);
     AccountId := string;
     PrivateKey := string;
     PublicKey := string;
     Tx := Buffer * nat;
     Client_forMainnet := ("mainnet", None);
     Client_forTestnet := ("testnet", None);
     Client_forPreviewnet := ("previewnet", None);
     Client_setOperator := fun c a k =>
       if Ref.is_account_id a false 0 then inr (fst c, Some (a, k))
       else inl (Error "failed to parse entity id");
     AccountId_fromString := fun a =>
       if Ref.is_account_id a false 0 then inr a
       else inl (Error "failed to parse entity id");
     AccountId_compare := fun a b => if (a =? b)%string then 0%Z else 1%Z;
     PrivateKey_generateED25519 := fun w => ("302e0201", w);
     PrivateKey_fromString := fun k => inr k;
     PrivateKey_toString := fun k => k;
     publicKey := fun k => ("pub-" ++ k)%string;
     PublicKey_toString := fun k => k;
     AccountCreateTransaction_execute := fun _ _ _ w => (inr Ref.response, S w);
     TransferTransaction_execute := fun _ _ w => (inr Ref.response, S w);
     Transaction_execute := fun _ _ w => (inr Ref.response, S w);
     getReceipt := fun _ _ w =>
       (inr {| receipt_accountId := None; receipt_status := "INSUFFICIENT_PAYER_BALANCE" |},
        w);
     Transaction_fromBytes := fun b =>
       match b with
       | [] => inl (Error "malformed transaction")
       | n :: body => inr (body, Byte.to_nat n)
       end;
     Transaction_sign := fun t _ w => (inr (fst t, S (snd t)), w);
     Transaction_toBytes := fun t =>
       inr (byte_of_N (N.of_nat (snd t)) :: fst t) |}.

(** The reference host on a single item. *)
Definition one (r : Ref.Request) : Host nat := Ref.host (Some Ref.creds) true [r].


(** Four items the first version of the node knows. *)
Definition mixed : list Ref.Request :=
  [ Ref.create (number_of_Z 5);
    Ref.other "token" "mint";
    Ref.transaction "sign" [x00; x05];
    Ref.transfer "0.0.2002" {| mantissa := 15; scale := 1 |} ].

(** A host that has no credentials to give. *)
Definition host_without_credentials : Host nat :=
  {| getInputData := [ {| json := [] |} ];
     getCredentials := fun _ w =>
       (inl (Error "Node does not have any credentials set"), w);
     getNodeParameter_string := fun _ _ => inl (Error "Could not get parameter");
     getNodeParameter_number := fun _ _ => inl (Error "Could not get parameter");
     getNodeParameter_any := fun _ _ => inl (Error "Could not get parameter");
     continueOnFail := true;
     prepareOutputData := fun records => [records];
     Buffer_from_other := fun _ =>
       inl (Error "The first argument must be of type string or an instance of Buffer") |}.

(** Credentials whose account id the SDK cannot parse. *)
Definition creds_malformed : IHederaCredentials :=
  {| cred_accountId := Some "zero.zero.1001";
     cred_privateKey := Some "302e0202";
     cred_network := "testnet" |}.

End Sample.

(* ================================================================== *)
(** ** Part II: properties                                             *)
(* ================================================================== *)

(** *** The definitions at work *)

Example encode_Man : Buffer_toString_base64 ["M"%byte; "a"%byte; "n"%byte] = "TWFu".
Proof. reflexivity. Qed.

Example encode_Ma : Buffer_toString_base64 ["M"%byte; "a"%byte] = "TWE=".
Proof. reflexivity. Qed.

Example decode_padded : Buffer_from_base64 "TWE=" = ["M"%byte; "a"%byte].
Proof. reflexivity. Qed.

Example decode_skips_illegal :
  Buffer_from_base64 "T W!F-u" = ["M"%byte; "a"%byte; "~"%byte].
Proof. reflexivity. Qed.

Example hex_of_octets : Buffer_toString_hex [x01; xab] = "01ab".
Proof. reflexivity. Qed.

Example one_and_a_half_hbar :
  Hbar_new {| mantissa := 15; scale := 1 |} = inr {| toTinybars := 150000000 |}.
Proof. reflexivity. Qed.

Example nine_decimals :
  Hbar_new {| mantissa := 1; scale := 9 |}
  = inl (Error "Hbar in tinybars contains decimals").
Proof. reflexivity. Qed.

Example decimals_drop_trailing_zeros : decimals {| mantissa := 150; scale := 2 |} = 1.
Proof. reflexivity. Qed.

(** A second addition for an account lands on the entry of the first. *)
Example addition_to_same_account :
  addHbarTransfer (sdk := Ref.sdk) [ ("0.0.1001", {| toTinybars := -100000000 |}) ]
    "0.0.1001" {| toTinybars := 100000000 |}
  = inr [ ("0.0.1001", {| toTinybars := 0 |}) ].
Proof. reflexivity. Qed.

Example addition_to_other_account :
  addHbarTransfer (sdk := Ref.sdk) [ ("0.0.1001", {| toTinybars := -100000000 |}) ]
    "0.0.2002" {| toTinybars := 100000000 |}
  = inr [ ("0.0.1001", {| toTinybars := -100000000 |});
          ("0.0.2002", {| toTinybars := 100000000 |}) ].
Proof. reflexivity. Qed.

(** The reference batch in continue-on-fail mode. *)
Example execute_reference_batch :
  outcome (execute (sdk := Ref.sdk)
             (host := Ref.host (Some Ref.creds) true Ref.batch) 0)
  = inr [ [ {| json := [ ("newAccountId", "0.0.2002");
                         ("newAccountPublicKey", "pub-302e0201");
                         ("newAccountPrivateKey", "302e0201") ] |};
            {| json := [ ("error", "Unsupported resource: token") ] |};
            {| json := [ ("status", "SUCCESS");
                         ("transactionId", "0.0.1001@1700000000.000000001") ] |} ] ].
Proof. reflexivity. Qed.

(** *** Base64 decoding undoes base64 encoding *)

Lemma all_bytes_complete (b : byte) : In b all_bytes.
Proof.
  assert (H : existsb (Byte.eqb b) all_bytes = true) by (destruct b; reflexivity).
  apply existsb_exists in H. destruct H as [x [Hin Heq]].
  apply Byte.byte_dec_bl in Heq. now subst.
Qed.

(** A boolean check that holds on the enumeration holds on every octet. *)
Lemma forall_bytes (P : byte -> bool) :
  forallb P all_bytes = true -> forall b, P b = true.
Proof.
  intros H b. rewrite forallb_forall in H. apply H, all_bytes_complete.
Qed.

Lemma forall_bytes2 (P : byte -> byte -> bool) :
  forallb (fun a => forallb (P a) all_bytes) all_bytes = true ->
  forall a b, P a b = true.
Proof.
  intros H a b. apply forall_bytes. revert a. now apply forall_bytes.
Qed.

Section Base64Facts.

Import Base64.

Lemma legal_sextets (n : N) (s : string) :
  legal n = true -> sextets (String (table n) s) = n :: sextets s.
Proof.
  unfold legal. cbn [sextets].
  destruct (unbase64 (table n)) as [m|]; [|discriminate].
  intros H. apply N.eqb_eq in H. now subst.
Qed.

Lemma sextets_pad1 : sextets "=" = [].
Proof. reflexivity. Qed.

Lemma sextets_pad2 : sextets "==" = [].
Proof. reflexivity. Qed.

Lemma legal_sextet1 a : legal (sextet1 a) = true.
Proof. revert a. apply forall_bytes. vm_compute. reflexivity. Qed.

Lemma legal_sextet4 c : legal (sextet4 c) = true.
Proof. revert c. apply forall_bytes. vm_compute. reflexivity. Qed.

Lemma legal_sextet2 a b : legal (sextet2 a b) = true.
Proof. revert a b. apply forall_bytes2. vm_compute. reflexivity. Qed.

Lemma legal_sextet3 b c : legal (sextet3 b c) = true.
Proof. revert b c. apply forall_bytes2. vm_compute. reflexivity. Qed.

(** The first octet comes back from the first two sextets. *)
Lemma first_octet a b :
  byte_of_N (N.lor (N.shiftl (N.land (sextet1 a) 63) 2)
                   (N.shiftr (N.land (sextet2 a b) 48) 4)) = a.
Proof.
  apply Byte.byte_dec_bl. revert a b.
  apply (forall_bytes2 (fun a b => Byte.eqb (byte_of_N _) a)).
  vm_compute. reflexivity.
Qed.

(** The second octet takes its high half from the second sextet and its
    low half from the third. *)
Lemma second_high a b : N.land (sextet2 a b) 15 = N.shiftr (Byte.to_N b) 4.
Proof.
  apply N.eqb_eq. revert a b.
  apply (forall_bytes2 (fun a b => N.eqb (N.land (sextet2 a b) 15) _)).
  vm_compute. reflexivity.
Qed.

Lemma second_low b c : N.shiftr (N.land (sextet3 b c) 60) 2 = N.land (Byte.to_N b) 15.
Proof.
  apply N.eqb_eq. revert b c.
  apply (forall_bytes2 (fun b c => N.eqb (N.shiftr (N.land (sextet3 b c) 60) 2) _)).
  vm_compute. reflexivity.
Qed.

Lemma halves b :
  byte_of_N (N.lor (N.shiftl (N.shiftr (Byte.to_N b) 4) 4)
                   (N.land (Byte.to_N b) 15)) = b.
Proof.
  apply Byte.byte_dec_bl. revert b.
  apply (forall_bytes (fun b => Byte.eqb (byte_of_N _) b)).
  vm_compute. reflexivity.
Qed.

Lemma second_octet a b c :
  byte_of_N (N.lor (N.shiftl (N.land (sextet2 a b) 15) 4)
                   (N.shiftr (N.land (sextet3 b c) 60) 2)) = b.
Proof. rewrite second_high, second_low. apply halves. Qed.

Lemma third_octet b c :
  byte_of_N (N.lor (N.shiftl (N.land (sextet3 b c) 3) 6) (N.land (sextet4 c) 63)) = c.
Proof.
  apply Byte.byte_dec_bl. revert b c.
  apply (forall_bytes2 (fun b c => Byte.eqb (byte_of_N _) c)).
  vm_compute. reflexivity.
Qed.

(** The sextets of a short tail are those of the tail padded with a zero
    octet. *)
Lemma sextet2_tail a : N.shiftl (N.land (Byte.to_N a) 3) 4 = sextet2 a x00.
Proof. unfold sextet2. cbn [Byte.to_N]. now rewrite N.shiftr_0_l, N.lor_0_r. Qed.

Lemma sextet3_tail b : N.shiftl (N.land (Byte.to_N b) 15) 2 = sextet3 b x00.
Proof. unfold sextet3. cbn [Byte.to_N]. now rewrite N.shiftr_0_l, N.lor_0_r. Qed.

Lemma list_ind3 {A} (P : list A -> Prop) :
  P [] -> (forall a, P [a]) -> (forall a b, P [a; b]) ->
  (forall a b c l, P l -> P (a :: b :: c :: l)) ->
  forall l, P l.
Proof.
  intros H0 H1 H2 H3 l.
  enough (H : P l /\ (forall a, P (a :: l)) /\ (forall a b, P (a :: b :: l)))
    by apply H.
  induction l as [|x l [IH0 [IH1 IH2]]].
  - repeat split; auto.
  - repeat split; auto.
Qed.

(** Decoding what the encoder wrote gives the octets back. *)
Lemma decode_encode (b : Buffer) :
  Buffer_from_base64 (Buffer_toString_base64 b) = b.
Proof.
  unfold Buffer_from_base64, Buffer_toString_base64, decode.
  induction b as [|x|x y|x y z l IH] using list_ind3.
  - reflexivity.
  - cbn [encode]. rewrite sextet2_tail.
    rewrite (legal_sextets _ _ (legal_sextet1 x)), (legal_sextets _ _ (legal_sextet2 x x00)).
    rewrite sextets_pad2. cbn [unpack]. now rewrite first_octet.
  - cbn [encode]. rewrite sextet3_tail.
    rewrite (legal_sextets _ _ (legal_sextet1 x)), (legal_sextets _ _ (legal_sextet2 x y)),
      (legal_sextets _ _ (legal_sextet3 y x00)).
    rewrite sextets_pad1. cbn [unpack].
    now rewrite first_octet, second_octet.
  - cbn [encode].
    rewrite (legal_sextets _ _ (legal_sextet1 x)), (legal_sextets _ _ (legal_sextet2 x y)),
      (legal_sextets _ _ (legal_sextet3 y z)), (legal_sextets _ _ (legal_sextet4 z)).
    cbn [unpack]. now rewrite first_octet, second_octet, third_octet, IH.
Qed.

End Base64Facts.

(** *** The monad of runs *)

Section NodeFacts.

Context {World : Type} {sdk : Sdk World} {host : Host World}.

Lemma bind_inl {E A B} (m : M E A) (f : A -> M E B) w e :
  outcome (m w) = inl e ->
  bind m f w = mkRun (inl e) (world_after (m w)) (calls (m w)).
Proof. unfold bind. now intros ->. Qed.

Lemma bind_inr {E A B} (m : M E A) (f : A -> M E B) w a :
  outcome (m w) = inr a ->
  bind m f w =
    mkRun (outcome (f a (world_after (m w))))
          (world_after (f a (world_after (m w))))
          (calls (m w) ++ calls (f a (world_after (m w)))).
Proof. unfold bind. now intros ->. Qed.

(** A [bind] that returned: its first part returned too. *)
Lemma bind_ok {E A B} (m : M E A) (f : A -> M E B) w b :
  outcome (bind m f w) = inr b ->
  exists a, outcome (m w) = inr a /\ outcome (f a (world_after (m w))) = inr b.
Proof.
  unfold bind. destruct (outcome (m w)) as [e|a]; cbn; [discriminate|].
  intros H. now exists a.
Qed.

(** *** The item loop *)

Variables (accountId privKeyStr : string) (client : Client).

(** In continue-on-fail mode a turn of the loop appends one record,
    whatever the body did. *)
Lemma iteration_continue i returnData w :
  continueOnFail = true ->
  let r := processItem accountId privKeyStr client i w in
  outcome (iteration accountId privKeyStr client i returnData w)
    = inr (returnData ++ [record_of r])
  /\ world_after (iteration accountId privKeyStr client i returnData w)
    = world_after r.
Proof.
  intros Hc r. unfold iteration, try_catch, bind, record_of. fold r.
  rewrite Hc. destruct (outcome r) as [err|result]; cbn; auto.
Qed.

Lemma loop_continue remaining :
  continueOnFail = true ->
  forall i returnData w,
    outcome (loop accountId privKeyStr client remaining i returnData w)
    = inr (returnData
             ++ map record_of (item_runs accountId privKeyStr client remaining i w)).
Proof.
  intros Hc. induction remaining as [|n IH]; intros i returnData w.
  - cbn. now rewrite app_nil_r.
  - cbn [loop item_runs map].
    destruct (iteration_continue i returnData w Hc) as [Ho Hw].
    rewrite (bind_inr _ _ _ _ Ho). cbn [outcome].
    rewrite IH, Hw, <- app_assoc. reflexivity.
Qed.

(** In fail-fast mode a turn whose body threw throws the wrapped error,
    and one whose body returned goes on. *)
Lemma iteration_fail_fast i returnData w :
  continueOnFail = false ->
  let r := processItem accountId privKeyStr client i w in
  match outcome r with
  | inl err =>
      outcome (iteration accountId privKeyStr client i returnData w)
      = inl (NodeApiError err)
  | inr result =>
      outcome (iteration accountId privKeyStr client i returnData w)
      = inr (returnData ++ [ {| json := result |} ])
      /\ world_after (iteration accountId privKeyStr client i returnData w)
         = world_after r
  end.
Proof.
  intros Hc r. unfold iteration, try_catch, bind. fold r.
  rewrite Hc. destruct (outcome r) as [err|result]; cbn; auto.
Qed.

Lemma loop_fail_fast remaining :
  continueOnFail = false ->
  forall i returnData w k r err,
    nth_error (item_runs accountId privKeyStr client remaining i w) k = Some r ->
    outcome r = inl err ->
    (forall j rj, j < k ->
       nth_error (item_runs accountId privKeyStr client remaining i w) j = Some rj ->
       exists result, outcome rj = inr result) ->
    outcome (loop accountId privKeyStr client remaining i returnData w)
    = inl (NodeApiError err).
Proof.
  intros Hc. induction remaining as [|n IH]; intros i returnData w k r err Hk Hr Hbefore.
  - destruct k; discriminate.
  - cbn [loop]. cbn [item_runs] in Hk, Hbefore.
    pose proof (iteration_fail_fast i returnData w Hc) as Hit. cbn zeta in Hit.
    destruct k as [|k].
    + cbn in Hk. injection Hk as <-. rewrite Hr in Hit.
      now rewrite (bind_inl _ _ _ _ Hit).
    + destruct (Hbefore 0 _ (Nat.lt_0_succ k) eq_refl) as [result Hres].
      rewrite Hres in Hit. destruct Hit as [Ho Hw].
      rewrite (bind_inr _ _ _ _ Ho). cbn [outcome]. rewrite Hw.
      apply (IH _ _ _ k r err); auto.
      intros j rj Hj Hnth. apply (Hbefore (S j) rj); [lia | exact Hnth].
Qed.

Lemma item_runs_length remaining :
  forall i w, length (item_runs accountId privKeyStr client remaining i w) = remaining.
Proof. induction remaining as [|n IH]; intros i w; cbn; auto. Qed.

End NodeFacts.

(** *** Batches *)

Section Batches.

Context {World : Type} {sdk : Sdk World} {host : Host World}.

(** Once set up, [execute] is the loop followed by [prepareOutputData]. *)
Lemma execute_configured w accountId privKeyStr client w1 :
  configured w accountId privKeyStr client w1 ->
  outcome (execute w)
  = match outcome (loop accountId privKeyStr client (length getInputData) 0 [] w1) with
    | inl e => inl e
    | inr returnData => inr (prepareOutputData returnData)
    end.
Proof.
  intros [creds [Hc [Ha [Hna [Hk [Hnk Hop]]]]]].
  apply String.eqb_neq in Hna, Hnk.
  unfold execute, bind, uncaught, try_catch, call, lift.
  rewrite Hc. cbn. rewrite Ha, Hk. cbn. rewrite Hna, Hnk. cbn.
  rewrite Hop. cbn.
  destruct (outcome (loop _ _ _ _ _ _ _)); reflexivity.
Qed.

(** C1. In continue-on-fail mode a batch of N items that is processed at
    all gives exactly N records, in the order of the items: record [k] is
    the result of item [k] when its body returned, and the error record
    with its message when it threw.  A failure removes or moves no record
    of another item. *)
Theorem continue_on_fail_preserves_order w accountId privKeyStr client w1 :
  continueOnFail = true ->
  configured w accountId privKeyStr client w1 ->
  let runs := item_runs accountId privKeyStr client (length getInputData) 0 w1 in
  exists records,
    outcome (execute w) = inr (prepareOutputData records)
    /\ length records = length getInputData
    /\ forall k, k < length getInputData ->
         exists r,
           nth_error runs k = Some r
           /\ nth_error records k
              = Some match outcome r with
                     | inl err => {| json := [ ("error", message err) ] |}
                     | inr result => {| json := result |}
                     end.
Proof.
  intros Hc Hconf runs. exists (map record_of runs). split; [|split].
  - rewrite (execute_configured _ _ _ _ _ Hconf), (loop_continue _ _ _ _ Hc).
    reflexivity.
  - unfold runs. now rewrite length_map, item_runs_length.
  - intros k Hk.
    destruct (nth_error runs k) as [r|] eqn:Hr.
    + exists r. split; [reflexivity|].
      rewrite nth_error_map, Hr. reflexivity.
    + apply nth_error_None in Hr. unfold runs in Hr.
      rewrite item_runs_length in Hr. lia.
Qed.

(** C10. In fail-fast mode, when the body of item [k] is the first to
    throw, [execute] throws the wrapped error and returns nothing: the
    records of the items before [k] are not handed out. *)
Theorem fail_fast_returns_nothing w accountId privKeyStr client w1 k r err :
  continueOnFail = false ->
  configured w accountId privKeyStr client w1 ->
  let runs := item_runs accountId privKeyStr client (length getInputData) 0 w1 in
  nth_error runs k = Some r ->
  outcome r = inl err ->
  (forall j rj, j < k -> nth_error runs j = Some rj ->
     exists result, outcome rj = inr result) ->
  outcome (execute w) = inl (NodeApiError err).
Proof.
  intros Hc Hconf runs Hk Hr Hbefore.
  rewrite (execute_configured _ _ _ _ _ Hconf).
  now rewrite (loop_fail_fast _ _ _ _ Hc 0 [] w1 k r err Hk Hr Hbefore).
Qed.

(** C2. When the credential object is absent, or its account id or its
    private key is missing or empty, [execute] throws the configuration
    error; the only call it has made is the one for the credentials: no
    parameter of any item was read, nothing reached the network, and no
    record is returned. *)
Theorem missing_credentials_abort w creds w1 :
  getCredentials "hederaApi" w = (inr creds, w1) ->
  (creds = None
   \/ exists c, creds = Some c
        /\ (falsy (cred_accountId c) = true \/ falsy (cred_privateKey c) = true)) ->
  execute w
  = mkRun (inl (Uncaught
                  (NodeOperationError "Hedera credentials are not set up correctly.")))
          w1 [CallGetCredentials "hederaApi"].
Proof.
  intros Hc Hmiss.
  unfold execute, bind, uncaught, try_catch, call, throw.
  rewrite Hc. cbn.
  destruct Hmiss as [-> | [c [-> Hf]]]; [reflexivity|].
  assert (Hor : falsy (cred_accountId c) || falsy (cred_privateKey c) = true)
    by (apply orb_true_iff; exact Hf).
  rewrite Hor. reflexivity.
Qed.

End Batches.

(** C1 on the reference batch: three records, the second the error. *)
Lemma continue_on_fail_preserves_order_witness :
  exists records,
    outcome (execute (sdk := Ref.sdk) (host := Ref.host (Some Ref.creds) true Ref.batch) 0)
    = inr [records]
    /\ length records = 3
    /\ forall k, k < 3 ->
         exists r,
           nth_error
             (item_runs (sdk := Ref.sdk) (host := Ref.host (Some Ref.creds) true Ref.batch)
                "0.0.1001" "302e0202" Ref.client 3 0 0) k = Some r
           /\ nth_error records k
              = Some match outcome r with
                     | inl err => {| json := [ ("error", message err) ] |}
                     | inr result => {| json := result |}
                     end.
Proof.
  apply (continue_on_fail_preserves_order
           (sdk := Ref.sdk) (host := Ref.host (Some Ref.creds) true Ref.batch)
           0 "0.0.1001" "302e0202" Ref.client 0).
  - reflexivity.
  - exists Ref.creds. repeat split; try reflexivity; discriminate.
Defined.

(** C10 on the reference batch in fail-fast mode: the second item throws. *)
Lemma fail_fast_returns_nothing_witness :
  outcome (execute (sdk := Ref.sdk) (host := Ref.host (Some Ref.creds) false Ref.batch) 0)
  = inl (NodeApiError (NodeOperationError "Unsupported resource: token")).
Proof.
  apply (fail_fast_returns_nothing
           (sdk := Ref.sdk) (host := Ref.host (Some Ref.creds) false Ref.batch)
           0 "0.0.1001" "302e0202" Ref.client 0 1
           (processItem (sdk := Ref.sdk) (host := Ref.host (Some Ref.creds) false Ref.batch)
              "0.0.1001" "302e0202" Ref.client 1 1)).
  - reflexivity.
  - exists Ref.creds. repeat split; try reflexivity; discriminate.
  - reflexivity.
  - reflexivity.
  - intros j rj Hj. destruct j as [|j]; [|lia].
    intros H. injection H as <-. eexists. reflexivity.
Defined.

(** C2 on credentials without a private key. *)
Lemma missing_credentials_abort_witness :
  execute (sdk := Ref.sdk)
    (host := Ref.host (Some Ref.creds_without_key) true Ref.batch) 0
  = mkRun (inl (Uncaught
                  (NodeOperationError "Hedera credentials are not set up correctly.")))
          0 [CallGetCredentials "hederaApi"].
Proof.
  apply (missing_credentials_abort
           (sdk := Ref.sdk)
           (host := Ref.host (Some Ref.creds_without_key) true Ref.batch)
           0 (Some Ref.creds_without_key) 0).
  - reflexivity.
  - right. exists Ref.creds_without_key. split; [reflexivity|]. right. reflexivity.
Defined.

(** *** One item *)

Section Items.

Context {World : Type} {sdk : Sdk World} {host : Host World}.

Variables (accountId privKeyStr : string) (client : Client).

Lemma call_calls {E A} (c : Call) (op : World -> (E + A) * World) w :
  calls (call c op w) = [c].
Proof. unfold call. now destruct (op w). Qed.

Lemma read_string name i w :
  getNodeParameter_s name i w
  = mkRun (getNodeParameter_string name i) w [CallGetNodeParameter name i].
Proof. reflexivity. Qed.

Lemma read_number name i w :
  getNodeParameter_n name i w
  = mkRun (getNodeParameter_number name i) w [CallGetNodeParameter name i].
Proof. reflexivity. Qed.

Lemma read_any name i w :
  getNodeParameter_a name i w
  = mkRun (getNodeParameter_any name i) w [CallGetNodeParameter name i].
Proof. reflexivity. Qed.

Lemma bind_outcome_inr {E A B} (m : M E A) (f : A -> M E B) w a :
  outcome (m w) = inr a ->
  outcome (bind m f w) = outcome (f a (world_after (m w))).
Proof. intros H. now rewrite (bind_inr _ _ _ _ H). Qed.

(** A read that returned [v] hands [v] on in the same world. *)
Lemma bind_read_string {B} name i (f : string -> M Thrown B) w v :
  getNodeParameter_string name i = inr v ->
  outcome (bind (getNodeParameter_s name i) f w) = outcome (f v w).
Proof.
  intros H. rewrite (bind_outcome_inr _ _ _ v); [reflexivity|].
  rewrite read_string. exact H.
Qed.

(** Takes a run that returned apart, down to the reads and calls it is
    made of. *)
Ltac returned H :=
  cbv beta zeta in H;
  lazymatch type of H with
  | outcome (bind _ _ _) = inr _ =>
      let v := fresh "v" in
      let Hv := fresh "Hv" in
      apply bind_ok in H; destruct H as [v [Hv H]]; returned H
  | outcome ((if ?c then _ else _) _) = inr _ =>
      destruct c eqn:?; returned H
  | outcome (match ?x with Some _ => _ | None => _ end _) = inr _ =>
      destruct x eqn:?; returned H
  | outcome (throw _ _) = inr _ => discriminate H
  | outcome (ret _ _) = inr _ => cbn in H; injection H as H
  | _ => idtac
  end.


(** C8. The record of an item whose body returned has exactly the fields
    of its operation, in this order: the three of the new account for
    create; status and transaction id for transfer; the signed transaction
    for sign; the four submission fields for submit; and those four
    followed by the signed transaction for signAndSubmit. *)
Theorem success_record_fields i w result :
  outcome (processItem accountId privKeyStr client i w) = inr result ->
  (getNodeParameter_string "resource" i = inr "account"
   /\ getNodeParameter_string "accountOperation" i = inr "create"
   /\ map fst result
      = [ "newAccountId"; "newAccountPublicKey"; "newAccountPrivateKey" ])
  \/ (getNodeParameter_string "resource" i = inr "account"
      /\ getNodeParameter_string "accountOperation" i = inr "transfer"
      /\ map fst result = [ "status"; "transactionId" ])
  \/ (getNodeParameter_string "resource" i = inr "transaction"
      /\ getNodeParameter_string "transactionOperation" i = inr "sign"
      /\ map fst result = [ "signedTransaction" ])
  \/ (getNodeParameter_string "resource" i = inr "transaction"
      /\ getNodeParameter_string "transactionOperation" i = inr "submit"
      /\ map fst result
         = [ "transactionId"; "nodeId"; "transactionHash"; "status" ])
  \/ (getNodeParameter_string "resource" i = inr "transaction"
      /\ getNodeParameter_string "transactionOperation" i = inr "signAndSubmit"
      /\ map fst result
         = [ "transactionId"; "nodeId"; "transactionHash"; "status";
             "signedTransaction" ]).
Proof.
  intros H. unfold processItem in H. returned H; subst result;
    repeat match goal with
      | E : (_ =? _)%string = true |- _ => apply String.eqb_eq in E; subst
      end;
    cbn in *.
  - left. auto.
  - right. left. auto.
  - right. right. left. auto.
  - right. right. right. left. auto.
  - right. right. right. right. auto.
Qed.

End Items.

(** *** Amounts and transfers *)

(** Precision: scaling by [10^8] leaves no fraction exactly when the value has
    at most 8 decimals. *)
Lemma scaled_is_integer (s : nat) :
  forall m : Z,
    ((m * 10 ^ 8) mod 10 ^ Z.of_nat s = 0)%Z <-> decimals_aux m s <= 8.
Proof.
  induction s as [|s IH]; intros m.
  - cbn [decimals_aux]. change (10 ^ Z.of_nat 0)%Z with 1%Z.
    rewrite Z.mod_1_r. split; intros; [lia | reflexivity].
  - cbn [decimals_aux].
    assert (Hpow : (10 ^ Z.of_nat (S s) = 10 * 10 ^ Z.of_nat s)%Z)
      by (rewrite Nat2Z.inj_succ, Z.pow_succ_r; lia).
    assert (Hpos : (0 < 10 ^ Z.of_nat s)%Z) by (apply Z.pow_pos_nonneg; lia).
    destruct (m mod 10 =? 0)%Z eqn:Hm.
    + apply Z.eqb_eq in Hm.
      assert (Hq : (m = 10 * (m / 10))%Z).
      { pose proof (Z.div_mod m 10 ltac:(lia)). lia. }
      rewrite <- IH, Hpow.
      rewrite Hq at 1. rewrite <- Z.mul_assoc.
      rewrite Z.mul_mod_distr_l by lia. lia.
    + apply Z.eqb_neq in Hm. split.
      * intros H. destruct (le_gt_dec (S s) 8) as [Hle|Hgt]; [exact Hle|].
        exfalso. apply Hm.
        apply Z.mod_divide in H; [|lia].
        assert (Hsplit : (10 ^ Z.of_nat (S s) = 10 ^ Z.of_nat (S s - 8) * 10 ^ 8)%Z).
        { rewrite <- Z.pow_add_r by lia. f_equal. lia. }
        rewrite Hsplit in H.
        apply Z.mul_divide_cancel_r in H; [|lia].
        apply Z.mod_divide; [lia|].
        apply Z.divide_trans with (m := (10 ^ Z.of_nat (S s - 8))%Z); [|exact H].
        exists (10 ^ Z.of_nat (S s - 8 - 1))%Z.
        replace (Z.of_nat (S s - 8)) with (Z.succ (Z.of_nat (S s - 8 - 1))) by lia.
        rewrite Z.pow_succ_r by lia. apply Z.mul_comm.
      * intros Hle.
        assert (Hsplit : (10 ^ 8 = 10 ^ Z.of_nat (8 - S s) * 10 ^ Z.of_nat (S s))%Z).
        { rewrite <- Z.pow_add_r by lia. f_equal. lia. }
        rewrite Hsplit, Z.mul_assoc. apply Z.mod_mul. lia.
Qed.

(** More than 8 decimals: the constructor throws. *)
Lemma Hbar_new_rejects (amount : number) :
  8 < decimals amount -> exists err, Hbar_new amount = inl err.
Proof.
  intros H. unfold Hbar_new.
  destruct (_ mod _ =? 0)%Z eqn:E; [|eauto].
  apply Z.eqb_eq, scaled_is_integer in E. unfold decimals in H. lia.
Qed.

(** At most 8 decimals: the constructor returns the exact number of
    tinybars, nothing is cut off. *)
Lemma Hbar_new_accepts (amount : number) :
  decimals amount <= 8 ->
  exists h, Hbar_new amount = inr h
    /\ (toTinybars h * 10 ^ Z.of_nat (scale amount) = mantissa amount * 10 ^ 8)%Z.
Proof.
  intros H. unfold Hbar_new.
  apply scaled_is_integer in H. rewrite (proj2 (Z.eqb_eq _ _) H).
  eexists. split; [reflexivity|]. cbn [toTinybars].
  assert (Hpos : (0 < 10 ^ Z.of_nat (scale amount))%Z) by (apply Z.pow_pos_nonneg; lia).
  pose proof (Z.div_mod (mantissa amount * 10 ^ 8) (10 ^ Z.of_nat (scale amount))
                ltac:(lia)).
  lia.
Qed.

(** The sign of the tinybars is the sign of the value. *)
Lemma Hbar_new_sign (amount : number) (h : Hbar) :
  Hbar_new amount = inr h ->
  ((toTinybars h < 0 <-> mantissa amount < 0)
   /\ (toTinybars h <= 0 <-> mantissa amount <= 0))%Z.
Proof.
  unfold Hbar_new. destruct (_ mod _ =? 0)%Z eqn:E; [|discriminate].
  intros H. injection H as <-. cbn [toTinybars].
  apply Z.eqb_eq in E.
  assert (Hpos : (0 < 10 ^ Z.of_nat (scale amount))%Z) by (apply Z.pow_pos_nonneg; lia).
  pose proof (Z.div_mod (mantissa amount * 10 ^ 8) (10 ^ Z.of_nat (scale amount))
                ltac:(lia)) as Hd.
  rewrite E, Z.add_0_r in Hd.
  set (q := (mantissa amount * 10 ^ 8 / 10 ^ Z.of_nat (scale amount))%Z) in *.
  set (d := (10 ^ Z.of_nat (scale amount))%Z) in *.
  split; split; intros; nia.
Qed.

Section Transfers.

Context {World : Type} {sdk : Sdk World} {host : Host World}.

Variables (accountId privKeyStr : string) (client : Client).

Lemma bind_calls {E A B} (m : M E A) (f : A -> M E B) w c :
  In c (calls (bind m f w)) ->
  In c (calls (m w))
  \/ exists a, outcome (m w) = inr a /\ In c (calls (f a (world_after (m w)))).
Proof.
  unfold bind. destruct (outcome (m w)) as [e|a]; cbn; [auto|].
  intros H. apply in_app_or in H. destruct H; [auto|]. right. now exists a.
Qed.

Lemma bind_calls_first {E A B} (m : M E A) (f : A -> M E B) w c :
  In c (calls (m w)) -> In c (calls (bind m f w)).
Proof.
  unfold bind. destruct (outcome (m w)); cbn; [auto|].
  intros H. apply in_or_app. now left.
Qed.

Lemma bind_calls_then {E A B} (m : M E A) (f : A -> M E B) w a c :
  outcome (m w) = inr a ->
  In c (calls (f a (world_after (m w)))) -> In c (calls (bind m f w)).
Proof.
  unfold bind. intros ->. cbn. intros H. apply in_or_app. now right.
Qed.

(** The helper reads parameters and calls nothing else. *)
Lemma getTransactionBytes_calls transactionFormat i w c :
  In c (calls (getTransactionBytes transactionFormat i w)) ->
  exists name, c = CallGetNodeParameter name i.
Proof.
  unfold getTransactionBytes.
  destruct (transactionFormat =? "base64")%string; intros H;
    apply bind_calls in H; destruct H as [H | [a [_ H]]].
  - cbn in H. destruct H as [<- | []]. eauto.
  - cbn in H. destruct H.
  - cbn in H. destruct H as [<- | []]. eauto.
  - apply bind_calls in H. destruct H as [H | [d [_ H]]].
    + repeat match type of H with
             | context [if ?b then _ else _] => destruct b
             end; cbn in H; destruct H.
    + cbn in H. destruct H.
Qed.

(** A call that is none of the node's reads, key generations and signatures
    was made by [execute_tx] or [get_receipt]. *)
Ltac leaf H :=
  try (apply getTransactionBytes_calls in H; destruct H as [? H]; discriminate H);
  unfold execute_tx, get_receipt, generateED25519, sign,
    getNodeParameter_s, getNodeParameter_n, getNodeParameter_a in H;
  try rewrite call_calls in H;
  unfold lift, ret, throw in H;
  cbn [calls In] in H;
  try (destruct H as [H | []]);
  try discriminate H;
  try contradiction.

Ltac made H :=
  cbv beta zeta in H;
  lazymatch type of H with
  | In _ (calls (bind _ _ _)) =>
      let v := fresh "v" in
      let Hv := fresh "Hv" in
      apply bind_calls in H; destruct H as [H | [v [Hv H]]]; [leaf H | made H]
  | In _ (calls ((if ?c then _ else _) _)) => destruct c eqn:?; made H
  | In _ (calls (match ?x with Some _ => _ | None => _ end _)) =>
      destruct x eqn:?; made H
  | _ => leaf H
  end.

(** Each addition raises the sum of the list by the amount added, whether
    it lands in an entry of its own or on top of one. *)
Lemma sum_add_transfer transfers (account : AccountId) (amount : Hbar) :
  sum_transfers (add_transfer transfers account amount)
  = (sum_transfers transfers + toTinybars amount)%Z.
Proof.
  induction transfers as [|[a h] rest IH]; cbn.
  - lia.
  - destruct (AccountId_compare a account =? 0)%Z; cbn.
    + unfold sum_transfers. lia.
    + fold (sum_transfers (add_transfer rest account amount)). rewrite IH.
      unfold sum_transfers. lia.
Qed.

(** The two additions of the transfer branch leave two entries for two
    accounts, and a single entry holding zero for one account. *)
Lemma debit_then_credit (sender recipient : AccountId) (h : Hbar) :
  add_transfer (add_transfer [] sender (negated h)) recipient h
  = if (AccountId_compare sender recipient =? 0)%Z
    then [ (sender, {| toTinybars := 0 |}) ]
    else [ (sender, negated h); (recipient, h) ].
Proof.
  cbn. destruct (AccountId_compare sender recipient =? 0)%Z; [|reflexivity].
  do 3 f_equal. lia.
Qed.

(** C6. Every transfer transaction the node hands to [execute] was built by
    two additions onto the empty list: the operator account with the negated
    amount, then the recipient with the amount itself, the amount being the
    one made from the [amount] parameter of the item.  Its signed amounts
    add up to zero.  For two accounts the entries are these two; when the
    recipient is the operator account the SDK keeps a single entry, which
    holds zero. *)
Theorem transfer_is_zero_sum i w transfers c :
  In (CallExecute (TransferTransaction transfers) c)
     (calls (processItem accountId privKeyStr client i w)) ->
  sum_transfers transfers = 0%Z
  /\ exists recipientId amount h sender recipient,
       getNodeParameter_string "recipientId" i = inr recipientId
       /\ getNodeParameter_number "amount" i = inr amount
       /\ Hbar_new amount = inr h
       /\ AccountId_fromString accountId = inr sender
       /\ AccountId_fromString recipientId = inr recipient
       /\ transfers = add_transfer (add_transfer [] sender (negated h)) recipient h
       /\ (AccountId_compare sender recipient <> 0%Z ->
           transfers = [ (sender, negated h); (recipient, h) ])
       /\ (AccountId_compare sender recipient = 0%Z ->
           transfers = [ (sender, {| toTinybars := 0 |}) ]).
Proof.
  intros H. unfold processItem in H. made H.
  injection H as Ht Hc. subst transfers c.
  rewrite read_string in Hv1. rewrite read_number in Hv2.
  unfold lift in Hv3, Hv4, Hv5. cbn [outcome] in Hv1, Hv2, Hv3, Hv4, Hv5.
  unfold addHbarTransfer in Hv4, Hv5.
  destruct (AccountId_fromString accountId) as [e|sender] eqn:Hs; [discriminate|].
  assert (E4 : v4 = add_transfer [] sender (negated v3)) by congruence.
  destruct (AccountId_fromString v1) as [e|recipient] eqn:Hr; [discriminate|].
  assert (E5 : v5 = add_transfer v4 recipient v3) by congruence.
  subst v5 v4. clear Hv4 Hv5.
  split.
  - rewrite !sum_add_transfer. cbn. lia.
  - exists v1, v2, v3, sender, recipient.
    repeat (split; [assumption || reflexivity|]).
    rewrite debit_then_credit. split; intros Hcmp.
    + apply Z.eqb_neq in Hcmp. now rewrite Hcmp.
    + apply Z.eqb_eq in Hcmp. now rewrite Hcmp.
Qed.

End Transfers.

(** *** Octets as numbers *)

Lemma ToUint8_octet (x : byte) : ToUint8 (number_of_Z (Z.of_N (Byte.to_N x))) = x.
Proof.
  apply Byte.byte_dec_bl. revert x.
  apply (forall_bytes (fun x => Byte.eqb (ToUint8 _) x)).
  vm_compute. reflexivity.
Qed.

Lemma numbers_of_octets (b : Buffer) :
  numbers_of (map (fun x => JNum (number_of_Z (Z.of_N (Byte.to_N x)))) b)
  = Some (map (fun x => number_of_Z (Z.of_N (Byte.to_N x))) b).
Proof.
  induction b as [|x b IH]; [reflexivity|].
  cbn [map numbers_of]. now rewrite IH.
Qed.

(** *** What the node checks before it submits *)

Section Validation.

Context {World : Type} {sdk : Sdk World} {host : Host World}.

Variables (accountId privKeyStr : string) (client : Client).

Lemma read_string_returned name i w v :
  getNodeParameter_string name i = inr v ->
  outcome (getNodeParameter_s name i w) = inr v.
Proof. intros H. rewrite read_string. exact H. Qed.

Lemma read_number_returned name i w v :
  getNodeParameter_number name i = inr v ->
  outcome (getNodeParameter_n name i w) = inr v.
Proof. intros H. rewrite read_number. exact H. Qed.

Lemma lift_returned {A} (r : Thrown + A) w a :
  r = inr a -> outcome (lift (E := Thrown) r w) = inr a.
Proof. now intros ->. Qed.

(** A step that threw ends the run with its own calls. *)
Lemma bind_threw {E A B} (m : M E A) (f : A -> M E B) w e :
  outcome (m w) = inl e ->
  outcome (bind m f w) = inl e /\ calls (bind m f w) = calls (m w).
Proof. intros H. now rewrite (bind_inl _ _ _ _ H). Qed.

(** A step that returned hands on to the rest; the calls add up. *)
Lemma bind_returned {E A B} (m : M E A) (f : A -> M E B) w a :
  outcome (m w) = inr a ->
  outcome (bind m f w) = outcome (f a (world_after (m w)))
  /\ calls (bind m f w) = calls (m w) ++ calls (f a (world_after (m w))).
Proof. intros H. now rewrite (bind_inr _ _ _ _ H). Qed.

Lemma rejected_after {E A B} (m : M E A) (f : A -> M E B) w a :
  outcome (m w) = inr a ->
  no_network_call (calls (m w)) ->
  (exists err, outcome (f a (world_after (m w))) = inl err)
  /\ no_network_call (calls (f a (world_after (m w)))) ->
  (exists err, outcome (bind m f w) = inl err)
  /\ no_network_call (calls (bind m f w)).
Proof.
  intros H Hm [Ho Hc]. destruct (bind_returned m f w a H) as [-> ->].
  split; [exact Ho|]. intros c Hin. apply in_app_or in Hin.
  destruct Hin; auto.
Qed.

Lemma rejected_here {E A B} (m : M E A) (f : A -> M E B) w e :
  outcome (m w) = inl e ->
  no_network_call (calls (m w)) ->
  (exists err, outcome (bind m f w) = inl err)
  /\ no_network_call (calls (bind m f w)).
Proof.
  intros H Hm. destruct (bind_threw m f w e H) as [-> ->]. eauto.
Qed.

Lemma read_is_local name i c :
  In c [CallGetNodeParameter name i] -> is_network_call c = false.
Proof. now intros [<- | []]. Qed.

Lemma nothing_is_local c : In c (@nil Call) -> is_network_call c = false.
Proof. intros []. Qed.

(** A transfer whose amount and account ids are accepted reaches
    [execute] with the list of its two additions, whatever the amount and
    the accounts. *)
Lemma transfer_reaches_execute i w recipientId amount h sender recipient :
  getNodeParameter_string "resource" i = inr "account" ->
  getNodeParameter_string "accountOperation" i = inr "transfer" ->
  getNodeParameter_string "recipientId" i = inr recipientId ->
  getNodeParameter_number "amount" i = inr amount ->
  Hbar_new amount = inr h ->
  AccountId_fromString accountId = inr sender ->
  AccountId_fromString recipientId = inr recipient ->
  In (CallExecute
        (TransferTransaction
           (add_transfer (add_transfer [] sender (negated h)) recipient h))
        client)
     (calls (processItem accountId privKeyStr client i w)).
Proof.
  intros Hres Hop Hrec Ham Hh Hs Hr. unfold processItem.
  eapply bind_calls_then; [apply read_string_returned, Hres|]. cbv beta.
  cbn [String.eqb Ascii.eqb Bool.eqb].
  eapply bind_calls_then; [apply read_string_returned, Hop|]. cbv beta.
  cbn [String.eqb Ascii.eqb Bool.eqb].
  eapply bind_calls_then; [apply read_string_returned, Hrec|]. cbv beta.
  eapply bind_calls_then; [apply read_number_returned, Ham|]. cbv beta.
  eapply bind_calls_then; [apply lift_returned, Hh|]. cbv beta.
  eapply bind_calls_then.
  { apply lift_returned. unfold addHbarTransfer. rewrite Hs. reflexivity. }
  eapply bind_calls_then.
  { apply lift_returned. unfold addHbarTransfer. rewrite Hr. reflexivity. }
  apply bind_calls_first. unfold execute_tx. rewrite call_calls. now left.
Qed.

(** An account creation whose initial balance is accepted as an amount
    reaches [execute] with that amount and the fresh public key. *)
Lemma create_reaches_execute i w initialBalance h :
  getNodeParameter_string "resource" i = inr "account" ->
  getNodeParameter_string "accountOperation" i = inr "create" ->
  getNodeParameter_number "initialBalance" i = inr initialBalance ->
  Hbar_new initialBalance = inr h ->
  In (CallExecute
        (AccountCreateTransaction (publicKey (fst (PrivateKey_generateED25519 w))) h)
        client)
     (calls (processItem accountId privKeyStr client i w)).
Proof.
  intros Hres Hop Hbal Hh. unfold processItem.
  eapply bind_calls_then; [apply read_string_returned, Hres|]. cbv beta.
  cbn [String.eqb Ascii.eqb Bool.eqb].
  eapply bind_calls_then; [apply read_string_returned, Hop|]. cbv beta.
  cbn [String.eqb Ascii.eqb Bool.eqb].
  eapply bind_calls_then; [apply read_number_returned, Hbal|]. cbv beta.
  rewrite !read_string, read_number. cbn [world_after].
  apply (bind_calls_then _ _ _ (fst (PrivateKey_generateED25519 w))).
  { unfold generateED25519, call.
    destruct (PrivateKey_generateED25519 w) as [k w']. reflexivity. }
  cbv beta zeta.
  eapply bind_calls_then; [apply lift_returned, Hh|]. cbv beta.
  apply bind_calls_first. unfold execute_tx. rewrite call_calls. now left.
Qed.

(** A run that reached [execute] was not turned down before the network. *)
Lemma submitted_not_rejected {A} (r : Run Thrown A) tx c :
  In (CallExecute tx c) (calls r) -> ~ rejected_locally r.
Proof. intros Hin [_ Hlocal]. specialize (Hlocal _ Hin). discriminate Hlocal. Qed.

(** C4, as the node has it.  The transfer branch checks neither the sign of
    the amount nor that sender and recipient differ.  Whenever the amount
    has at most 8 decimals and both account ids parse, a transfer is handed
    to [execute]: with the two entries, operator debited and recipient
    credited, when the two are different accounts, and with the single entry
    of the operator holding zero when they are one account.  The item is
    turned down before the network exactly when the amount or one of the two
    ids is not accepted. *)
Theorem transfer_is_submitted_unchecked i w recipientId amount :
  getNodeParameter_string "resource" i = inr "account" ->
  getNodeParameter_string "accountOperation" i = inr "transfer" ->
  getNodeParameter_string "recipientId" i = inr recipientId ->
  getNodeParameter_number "amount" i = inr amount ->
  let run := processItem accountId privKeyStr client i w in
  (forall h sender recipient,
      Hbar_new amount = inr h ->
      AccountId_fromString accountId = inr sender ->
      AccountId_fromString recipientId = inr recipient ->
      In (CallExecute
            (TransferTransaction
               (if (AccountId_compare sender recipient =? 0)%Z
                then [ (sender, {| toTinybars := 0 |}) ]
                else [ (sender, negated h); (recipient, h) ]))
            client)
         (calls run))
  /\ (rejected_locally run
      <-> (exists e, Hbar_new amount = inl e)
          \/ (exists e, AccountId_fromString accountId = inl e)
          \/ (exists e, AccountId_fromString recipientId = inl e)).
Proof.
  intros Hres Hop Hrec Ham run.
  assert (Hsub : forall h sender recipient,
      Hbar_new amount = inr h ->
      AccountId_fromString accountId = inr sender ->
      AccountId_fromString recipientId = inr recipient ->
      In (CallExecute
            (TransferTransaction
               (if (AccountId_compare sender recipient =? 0)%Z
                then [ (sender, {| toTinybars := 0 |}) ]
                else [ (sender, negated h); (recipient, h) ]))
            client)
         (calls run)).
  { intros h sender recipient Hh Hs Hr. rewrite <- debit_then_credit.
    now apply (transfer_reaches_execute i w recipientId amount). }
  split; [exact Hsub|]. split.
  - intros [_ Hlocal].
    destruct (Hbar_new amount) as [e|h] eqn:Hh; [eauto|].
    destruct (AccountId_fromString accountId) as [e|sender] eqn:Hs; [eauto|].
    destruct (AccountId_fromString recipientId) as [e|recipient] eqn:Hr; [eauto|].
    specialize (Hlocal _ (Hsub h sender recipient eq_refl eq_refl eq_refl)).
    discriminate Hlocal.
  - intros Hfail. unfold rejected_locally, run, processItem.
    eapply rejected_after;
      [apply read_string_returned, Hres | intro; apply read_is_local |].
    cbv beta. cbn [String.eqb Ascii.eqb Bool.eqb].
    eapply rejected_after;
      [apply read_string_returned, Hop | intro; apply read_is_local |].
    cbv beta. cbn [String.eqb Ascii.eqb Bool.eqb].
    eapply rejected_after;
      [apply read_string_returned, Hrec | intro; apply read_is_local |].
    cbv beta.
    eapply rejected_after;
      [apply read_number_returned, Ham | intro; apply read_is_local |].
    cbv beta.
    destruct (Hbar_new amount) as [e|h] eqn:Hh.
    { eapply rejected_here; [reflexivity | intro; apply nothing_is_local]. }
    eapply rejected_after; [reflexivity | intro; apply nothing_is_local |].
    cbv beta.
    destruct (AccountId_fromString accountId) as [e|sender] eqn:Hs.
    { eapply rejected_here; [|intro; apply nothing_is_local].
      unfold lift, addHbarTransfer. rewrite Hs. reflexivity. }
    eapply rejected_after; [|intro; apply nothing_is_local|].
    { unfold lift, addHbarTransfer. rewrite Hs. reflexivity. }
    cbv beta.
    destruct (AccountId_fromString recipientId) as [e|recipient] eqn:Hr.
    { eapply rejected_here; [|intro; apply nothing_is_local].
      unfold lift, addHbarTransfer. rewrite Hr. reflexivity. }
    destruct Hfail as [[e He] | [[e He] | [e He]]]; discriminate He.
Qed.

(** C5, as modelled and as the node has it.  Amount construction throws on
    a value with more than 8 decimals and takes one with at most 8 decimals
    as the exact number of tinybars.  It does not look at the sign: a
    negative initial balance with at most 8 decimals becomes a negative
    amount, and the create branch hands the transaction carrying it to
    [execute]. *)
Theorem amount_construction i w :
  (forall amount, 8 < decimals amount -> exists err, Hbar_new amount = inl err)
  /\ (forall amount, decimals amount <= 8 ->
        exists h, Hbar_new amount = inr h
          /\ (toTinybars h * 10 ^ Z.of_nat (scale amount)
              = mantissa amount * 10 ^ 8)%Z)
  /\ (forall initialBalance,
        getNodeParameter_string "resource" i = inr "account" ->
        getNodeParameter_string "accountOperation" i = inr "create" ->
        getNodeParameter_number "initialBalance" i = inr initialBalance ->
        number_lt0 initialBalance ->
        decimals initialBalance <= 8 ->
        exists h,
          Hbar_new initialBalance = inr h
          /\ (toTinybars h < 0)%Z
          /\ In (CallExecute
                   (AccountCreateTransaction
                      (publicKey (fst (PrivateKey_generateED25519 w))) h) client)
                (calls (processItem accountId privKeyStr client i w))).
Proof.
  split; [exact Hbar_new_rejects|]. split; [exact Hbar_new_accepts|].
  intros initialBalance Hres Hop Hbal Hneg Hdec.
  destruct (Hbar_new_accepts _ Hdec) as [h [Hh _]].
  exists h. split; [exact Hh|]. split.
  { apply (Hbar_new_sign _ _ Hh). exact Hneg. }
  now apply (create_reaches_execute i w initialBalance).
Qed.

(** C7. The base64 text of a payload, read in base64 mode, and the object
    wrapping the array of its octets, read in buffer mode, give the same
    internal bytes: the payload itself. *)
Theorem wire_formats_agree i w (b : Buffer) :
  getNodeParameter_string "transaction" i = inr (Buffer_toString_base64 b) ->
  getNodeParameter_any "transactionBuffer" i = inr (Buffer_toJSON b) ->
  outcome (getTransactionBytes "base64" i w) = inr b
  /\ outcome (getTransactionBytes "buffer" i w) = inr b.
Proof.
  intros Hs Ha. split.
  - unfold getTransactionBytes. cbn [String.eqb Ascii.eqb Bool.eqb].
    rewrite (bind_read_string _ _ _ _ _ Hs). unfold ret. cbn [outcome].
    now rewrite decode_encode.
  - unfold getTransactionBytes. cbn [String.eqb Ascii.eqb Bool.eqb].
    rewrite (bind_outcome_inr _ _ _ (Buffer_toJSON b));
      [|rewrite read_any; exact Ha].
    cbv beta.
    change (opt_get (Buffer_toJSON b) "data")
      with (JArr (map (fun x => JNum (number_of_Z (Z.of_N (Byte.to_N x)))) b)).
    cbn [truthy]. unfold bind, ret, lift. cbn [outcome world_after].
    unfold Buffer_from. rewrite numbers_of_octets, map_map.
    f_equal. rewrite <- (map_id b) at 2. apply map_ext. exact ToUint8_octet.
Qed.

End Validation.

(** *** The theorems on the reference platform *)



(** C8 on a sign-and-submit item. *)
Lemma success_record_fields_witness :
  exists result,
    outcome (processItem (sdk := Ref.sdk)
               (host := Ref.host (Some Ref.creds) true
                          [Ref.transaction "signAndSubmit" [x00; x05]])
               "0.0.1001" "302e0202" Ref.client 0 0) = inr result
    /\ map fst result
       = [ "transactionId"; "nodeId"; "transactionHash"; "status"; "signedTransaction" ].
Proof.
  eexists. split; [reflexivity|].
  destruct (success_record_fields (sdk := Ref.sdk)
              (host := Ref.host (Some Ref.creds) true
                         [Ref.transaction "signAndSubmit" [x00; x05]])
              "0.0.1001" "302e0202" Ref.client 0 0 _ eq_refl)
    as [[H _] | [[H _] | [[_ [H _]] | [[_ [H _]] | [_ [_ H]]]]]];
    try discriminate H.
  exact H.
Defined.

(** C6 on a transfer of 1.5 hbar to another account, and on one to the
    operator account itself. *)
Lemma transfer_is_zero_sum_witness :
  sum_transfers (sdk := Ref.sdk)
    [ ("0.0.1001", {| toTinybars := -150000000 |});
      ("0.0.2002", {| toTinybars := 150000000 |}) ] = 0%Z
  /\ sum_transfers (sdk := Ref.sdk) [ ("0.0.1001", {| toTinybars := 0 |}) ] = 0%Z.
Proof.
  split.
  - apply (proj1 (transfer_is_zero_sum (sdk := Ref.sdk)
             (host := Ref.host (Some Ref.creds) true
                        [Ref.transfer "0.0.2002" {| mantissa := 15; scale := 1 |}])
             "0.0.1001" "302e0202" Ref.client 0 0 _ Ref.client
             (transfer_reaches_execute (sdk := Ref.sdk)
                (host := Ref.host (Some Ref.creds) true
                           [Ref.transfer "0.0.2002" {| mantissa := 15; scale := 1 |}])
                "0.0.1001" "302e0202" Ref.client 0 0 "0.0.2002"
                {| mantissa := 15; scale := 1 |} {| toTinybars := 150000000 |}
                "0.0.1001" "0.0.2002"
                eq_refl eq_refl eq_refl eq_refl eq_refl eq_refl eq_refl))).
  - apply (proj1 (transfer_is_zero_sum (sdk := Ref.sdk)
             (host := Ref.host (Some Ref.creds) true
                        [Ref.transfer "0.0.1001" {| mantissa := 15; scale := 1 |}])
             "0.0.1001" "302e0202" Ref.client 0 0 _ Ref.client
             (transfer_reaches_execute (sdk := Ref.sdk)
                (host := Ref.host (Some Ref.creds) true
                           [Ref.transfer "0.0.1001" {| mantissa := 15; scale := 1 |}])
                "0.0.1001" "302e0202" Ref.client 0 0 "0.0.1001"
                {| mantissa := 15; scale := 1 |} {| toTinybars := 150000000 |}
                "0.0.1001" "0.0.1001"
                eq_refl eq_refl eq_refl eq_refl eq_refl eq_refl eq_refl))).
Defined.

(** C4 does not hold as stated: a transfer of 0 hbar, and a transfer of
    1 hbar from the operator account 0.0.1001 to itself, are not turned
    down; each is handed to [execute], the first with two entries of zero
    and the second with the one entry of the operator, holding zero. *)
Lemma transfer_validation_counterexample :
  (number_le0 (number_of_Z 0)
   /\ ~ rejected_locally
          (processItem (sdk := Ref.sdk)
             (host := Ref.host (Some Ref.creds) true
                        [Ref.transfer "0.0.2002" (number_of_Z 0)])
             "0.0.1001" "302e0202" Ref.client 0 0)
   /\ In (CallExecute (sdk := Ref.sdk)
            (TransferTransaction (sdk := Ref.sdk)
               [ ("0.0.1001", {| toTinybars := 0 |});
                 ("0.0.2002", {| toTinybars := 0 |}) ])
            Ref.client)
         (calls (processItem (sdk := Ref.sdk)
                   (host := Ref.host (Some Ref.creds) true
                              [Ref.transfer "0.0.2002" (number_of_Z 0)])
                   "0.0.1001" "302e0202" Ref.client 0 0)))
  /\ (getNodeParameter_string
        (Host := Ref.host (Some Ref.creds) true [Ref.transfer "0.0.1001" (number_of_Z 1)])
        "recipientId" 0 = inr "0.0.1001"
      /\ ~ rejected_locally
             (processItem (sdk := Ref.sdk)
                (host := Ref.host (Some Ref.creds) true
                           [Ref.transfer "0.0.1001" (number_of_Z 1)])
                "0.0.1001" "302e0202" Ref.client 0 0)
      /\ In (CallExecute (sdk := Ref.sdk)
               (TransferTransaction (sdk := Ref.sdk)
                  [ ("0.0.1001", {| toTinybars := 0 |}) ])
               Ref.client)
            (calls (processItem (sdk := Ref.sdk)
                      (host := Ref.host (Some Ref.creds) true
                                 [Ref.transfer "0.0.1001" (number_of_Z 1)])
                      "0.0.1001" "302e0202" Ref.client 0 0))).
Proof.
  assert (H0 :
    In (CallExecute (sdk := Ref.sdk)
          (TransferTransaction (sdk := Ref.sdk)
             [ ("0.0.1001", {| toTinybars := 0 |});
               ("0.0.2002", {| toTinybars := 0 |}) ])
          Ref.client)
       (calls (processItem (sdk := Ref.sdk)
                 (host := Ref.host (Some Ref.creds) true
                            [Ref.transfer "0.0.2002" (number_of_Z 0)])
                 "0.0.1001" "302e0202" Ref.client 0 0))).
  { apply (transfer_reaches_execute (sdk := Ref.sdk)
             (host := Ref.host (Some Ref.creds) true
                        [Ref.transfer "0.0.2002" (number_of_Z 0)])
             "0.0.1001" "302e0202" Ref.client 0 0 "0.0.2002" (number_of_Z 0)
             {| toTinybars := 0 |} "0.0.1001" "0.0.2002");
      reflexivity. }
  assert (H1 :
    In (CallExecute (sdk := Ref.sdk)
          (TransferTransaction (sdk := Ref.sdk)
             [ ("0.0.1001", {| toTinybars := 0 |}) ])
          Ref.client)
       (calls (processItem (sdk := Ref.sdk)
                 (host := Ref.host (Some Ref.creds) true
                            [Ref.transfer "0.0.1001" (number_of_Z 1)])
                 "0.0.1001" "302e0202" Ref.client 0 0))).
  { apply (transfer_reaches_execute (sdk := Ref.sdk)
             (host := Ref.host (Some Ref.creds) true
                        [Ref.transfer "0.0.1001" (number_of_Z 1)])
             "0.0.1001" "302e0202" Ref.client 0 0 "0.0.1001" (number_of_Z 1)
             {| toTinybars := 100000000 |} "0.0.1001" "0.0.1001");
      reflexivity. }
  split; (split; [|split]).
  - unfold number_le0. cbn. lia.
  - exact (submitted_not_rejected _ _ _ H0).
  - exact H0.
  - reflexivity.
  - exact (submitted_not_rejected _ _ _ H1).
  - exact H1.
Qed.

(** C4 as amended, on the transfer of 0 hbar and on the transfer of 1 hbar
    from the operator account to itself. *)
Lemma transfer_is_submitted_unchecked_witness :
  In (CallExecute (sdk := Ref.sdk)
        (TransferTransaction (sdk := Ref.sdk)
           [ ("0.0.1001", negated {| toTinybars := 0 |});
             ("0.0.2002", {| toTinybars := 0 |}) ])
        Ref.client)
     (calls (processItem (sdk := Ref.sdk)
               (host := Ref.host (Some Ref.creds) true
                          [Ref.transfer "0.0.2002" (number_of_Z 0)])
               "0.0.1001" "302e0202" Ref.client 0 0))
  /\ In (CallExecute (sdk := Ref.sdk)
           (TransferTransaction (sdk := Ref.sdk) [ ("0.0.1001", {| toTinybars := 0 |}) ])
           Ref.client)
        (calls (processItem (sdk := Ref.sdk)
                  (host := Ref.host (Some Ref.creds) true
                             [Ref.transfer "0.0.1001" (number_of_Z 1)])
                  "0.0.1001" "302e0202" Ref.client 0 0)).
Proof.
  split.
  - exact (proj1 (transfer_is_submitted_unchecked (sdk := Ref.sdk)
                    (host := Ref.host (Some Ref.creds) true
                               [Ref.transfer "0.0.2002" (number_of_Z 0)])
                    "0.0.1001" "302e0202" Ref.client 0 0 "0.0.2002" (number_of_Z 0)
                    eq_refl eq_refl eq_refl eq_refl)
             {| toTinybars := 0 |} "0.0.1001" "0.0.2002" eq_refl eq_refl eq_refl).
  - exact (proj1 (transfer_is_submitted_unchecked (sdk := Ref.sdk)
                    (host := Ref.host (Some Ref.creds) true
                               [Ref.transfer "0.0.1001" (number_of_Z 1)])
                    "0.0.1001" "302e0202" Ref.client 0 0 "0.0.1001" (number_of_Z 1)
                    eq_refl eq_refl eq_refl eq_refl)
             {| toTinybars := 100000000 |} "0.0.1001" "0.0.1001"
             eq_refl eq_refl eq_refl).
Defined.

(** C5 does not hold as stated: an initial balance of -1 hbar is not turned
    down; the account creation carrying it is handed to [execute]. *)
Lemma negative_initial_balance_counterexample :
  number_lt0 (number_of_Z (-1))
  /\ ~ rejected_locally
         (processItem (sdk := Ref.sdk)
            (host := Ref.host (Some Ref.creds) true [Ref.create (number_of_Z (-1))])
            "0.0.1001" "302e0202" Ref.client 0 0)
  /\ In (CallExecute (sdk := Ref.sdk)
           (AccountCreateTransaction (sdk := Ref.sdk)
              "pub-302e0201" {| toTinybars := -100000000 |})
           Ref.client)
        (calls (processItem (sdk := Ref.sdk)
                  (host := Ref.host (Some Ref.creds) true [Ref.create (number_of_Z (-1))])
                  "0.0.1001" "302e0202" Ref.client 0 0)).
Proof.
  assert (H :
    In (CallExecute (sdk := Ref.sdk)
          (AccountCreateTransaction (sdk := Ref.sdk)
             "pub-302e0201" {| toTinybars := -100000000 |})
          Ref.client)
       (calls (processItem (sdk := Ref.sdk)
                 (host := Ref.host (Some Ref.creds) true [Ref.create (number_of_Z (-1))])
                 "0.0.1001" "302e0202" Ref.client 0 0))).
  { apply (create_reaches_execute (sdk := Ref.sdk)
             (host := Ref.host (Some Ref.creds) true [Ref.create (number_of_Z (-1))])
             "0.0.1001" "302e0202" Ref.client 0 0 (number_of_Z (-1)));
      reflexivity. }
  split; [|split].
  - unfold number_lt0. cbn. lia.
  - exact (submitted_not_rejected _ _ _ H).
  - exact H.
Qed.

(** C5 as amended: nine decimals are turned down, eight are taken as one
    tinybar, and -1 hbar goes out with the account creation. *)
Lemma amount_construction_witness :
  (exists err, Hbar_new {| mantissa := 1; scale := 9 |} = inl err)
  /\ (exists h, Hbar_new {| mantissa := 1; scale := 8 |} = inr h
        /\ (toTinybars h * 10 ^ Z.of_nat 8 = 1 * 10 ^ 8)%Z)
  /\ (exists h, Hbar_new (number_of_Z (-1)) = inr h
        /\ (toTinybars h < 0)%Z
        /\ In (CallExecute (sdk := Ref.sdk)
                 (AccountCreateTransaction (sdk := Ref.sdk) "pub-302e0201" h)
                 Ref.client)
              (calls (processItem (sdk := Ref.sdk)
                        (host := Ref.host (Some Ref.creds) true
                                   [Ref.create (number_of_Z (-1))])
                        "0.0.1001" "302e0202" Ref.client 0 0))).
Proof.
  destruct (amount_construction (sdk := Ref.sdk)
              (host := Ref.host (Some Ref.creds) true [Ref.create (number_of_Z (-1))])
              "0.0.1001" "302e0202" Ref.client 0 0) as [H1 [H2 H3]].
  split; [|split].
  - apply H1. cbn. lia.
  - apply (H2 {| mantissa := 1; scale := 8 |}). cbn. lia.
  - apply (H3 (number_of_Z (-1))); first [reflexivity | cbn; lia].
Defined.

(** C7 on a payload of three octets. *)
Lemma wire_formats_agree_witness :
  outcome (getTransactionBytes (sdk := Ref.sdk)
             (host := Ref.host (Some Ref.creds) true
                        [Ref.transaction "sign" [x00; x05; xff]])
             "base64" 0 0) = inr [x00; x05; xff]
  /\ outcome (getTransactionBytes (sdk := Ref.sdk)
                (host := Ref.host (Some Ref.creds) true
                           [Ref.transaction "sign" [x00; x05; xff]])
                "buffer" 0 0) = inr [x00; x05; xff].
Proof.
  apply (wire_formats_agree (sdk := Ref.sdk)
           (host := Ref.host (Some Ref.creds) true
                      [Ref.transaction "sign" [x00; x05; xff]])
           0 0 [x00; x05; xff]); reflexivity.
Defined.

(* ================================================================== *)
(** ** Part III: further properties of the node                        *)
(* ================================================================== *)

(** *** Reading the transaction bytes *)

Section TransactionBytes.

Context {World : Type} {sdk : Sdk World} {host : Host World}.

Lemma Buffer_from_octets (b : Buffer) : Buffer_from (octets b) = inr b.
Proof.
  unfold Buffer_from, octets. rewrite numbers_of_octets, map_map.
  f_equal. rewrite <- (map_id b) at 2. apply map_ext. exact ToUint8_octet.
Qed.

Lemma not_base64 (fmt : string) : fmt <> "base64" -> (fmt =? "base64")%string = false.
Proof. intros H. now apply String.eqb_neq. Qed.

(** The run of the helper in buffer mode, once the object is read. *)
Lemma getTransactionBytes_buffer fmt i w bufferObj :
  fmt <> "base64" ->
  getNodeParameter_any "transactionBuffer" i = inr bufferObj ->
  getTransactionBytes fmt i w
  = mkRun
      (if truthy (opt_get bufferObj "data") then
         Buffer_from (opt_get bufferObj "data")
       else if truthy (opt_get (opt_get bufferObj "transBytes") "data") then
         Buffer_from (opt_get (opt_get bufferObj "transBytes") "data")
       else if truthy (opt_get (opt_get bufferObj "transBase64") "data") then
         Buffer_from (opt_get (opt_get bufferObj "transBase64") "data")
       else if Array_isArray bufferObj then Buffer_from bufferObj
       else inl (NodeOperationError
                   "Invalid buffer object format. Expected object with data array or direct array."))
      w [CallGetNodeParameter "transactionBuffer" i].
Proof.
  intros Hf Ha. unfold getTransactionBytes. rewrite (not_base64 _ Hf).
  unfold bind at 1. rewrite read_any, Ha. cbn [outcome world_after calls].
  destruct (truthy (opt_get bufferObj "data")).
  { unfold bind, ret, lift. cbn. destruct (Buffer_from _); reflexivity. }
  destruct (truthy (opt_get (opt_get bufferObj "transBytes") "data")).
  { unfold bind, ret, lift. cbn. destruct (Buffer_from _); reflexivity. }
  destruct (truthy (opt_get (opt_get bufferObj "transBase64") "data")).
  { unfold bind, ret, lift. cbn. destruct (Buffer_from _); reflexivity. }
  destruct (Array_isArray bufferObj).
  { unfold bind, ret, lift. cbn. destruct (Buffer_from _); reflexivity. }
  reflexivity.
Qed.

(** X1. In buffer mode the four shapes the helper knows give the same
    bytes: an object whose [data] is the array of octets, an object whose
    [transBytes.data] or [transBase64.data] is, and the bare array. *)
Theorem buffer_shapes_agree fmt i w (b : Buffer) bufferObj :
  fmt <> "base64" ->
  getNodeParameter_any "transactionBuffer" i = inr bufferObj ->
  opt_get bufferObj "data" = octets b
  \/ (truthy (opt_get bufferObj "data") = false
      /\ opt_get (opt_get bufferObj "transBytes") "data" = octets b)
  \/ (truthy (opt_get bufferObj "data") = false
      /\ truthy (opt_get (opt_get bufferObj "transBytes") "data") = false
      /\ opt_get (opt_get bufferObj "transBase64") "data" = octets b)
  \/ bufferObj = octets b ->
  outcome (getTransactionBytes fmt i w) = inr b.
Proof.
  intros Hf Ha Hshape. rewrite (getTransactionBytes_buffer _ _ _ _ Hf Ha).
  cbn [outcome].
  destruct Hshape as [H | [[H1 H] | [[H1 [H2 H]] | H]]].
  - rewrite H. cbn [truthy octets]. apply Buffer_from_octets.
  - rewrite H1, H. cbn [truthy octets]. apply Buffer_from_octets.
  - rewrite H1, H2, H. cbn [truthy octets]. apply Buffer_from_octets.
  - subst bufferObj. cbn. apply Buffer_from_octets.
Qed.

(** X2. In buffer mode a value that is neither an object nor an array (a
    string such as unparsed JSON text, a number, a boolean, null, nothing),
    and an object that has none of [data], [transBytes] and [transBase64],
    make the helper throw the format error; it has read one parameter and
    called nothing else. *)
Theorem unusable_buffer_object fmt i w bufferObj :
  fmt <> "base64" ->
  getNodeParameter_any "transactionBuffer" i = inr bufferObj ->
  match bufferObj with
  | JArr _ => False
  | JObj fields =>
      lookup "data" fields = JUndefined
      /\ lookup "transBytes" fields = JUndefined
      /\ lookup "transBase64" fields = JUndefined
  | _ => True
  end ->
  getTransactionBytes fmt i w
  = mkRun (inl (NodeOperationError
                  "Invalid buffer object format. Expected object with data array or direct array."))
          w [CallGetNodeParameter "transactionBuffer" i].
Proof.
  intros Hf Ha Hbad. rewrite (getTransactionBytes_buffer _ _ _ _ Hf Ha).
  destruct bufferObj; try reflexivity; [contradiction|].
  destruct Hbad as [H1 [H2 H3]]. cbn [opt_get]. rewrite H1, H2, H3. reflexivity.
Qed.

Lemma getTransactionBytes_calls_world fmt i w :
  calls (getTransactionBytes fmt i w)
  = [CallGetNodeParameter
       (if (fmt =? "base64")%string then "transaction" else "transactionBuffer") i]
  /\ world_after (getTransactionBytes fmt i w) = w.
Proof.
  destruct (fmt =? "base64")%string eqn:E.
  - unfold getTransactionBytes. rewrite E.
    unfold bind. rewrite read_string. cbn [outcome world_after calls].
    destruct (getNodeParameter_string "transaction" i); cbn; auto.
  - apply String.eqb_neq in E.
    destruct (getNodeParameter_any "transactionBuffer" i) as [e|bufferObj] eqn:Ha.
    + unfold getTransactionBytes. rewrite (not_base64 _ E).
      assert (Ho : outcome (getNodeParameter_a "transactionBuffer" i w) = inl e)
        by (rewrite read_any; exact Ha).
      rewrite (bind_inl _ _ _ _ Ho), read_any. cbn. auto.
    + rewrite (getTransactionBytes_buffer _ _ _ _ E Ha). cbn. auto.
Qed.

(** X3. The helper reads exactly one parameter of its item, [transaction]
    when the format is [base64] and [transactionBuffer] for every other
    format, whatever the read gives; it makes no other call and leaves the
    world as it was. *)
Theorem getTransactionBytes_reads_one fmt i w :
  calls (getTransactionBytes fmt i w)
  = [CallGetNodeParameter
       (if (fmt =? "base64")%string then "transaction" else "transactionBuffer") i]
  /\ world_after (getTransactionBytes fmt i w) = w.
Proof. apply getTransactionBytes_calls_world. Qed.

End TransactionBytes.

(** *** The calls of one item *)

Section ItemCalls.

Context {World : Type} {sdk : Sdk World} {host : Host World}.

Variables (accountId privKeyStr : string) (client : Client).

(** What holds of the calls of both parts of a [bind], in every world,
    holds of the calls of the [bind]. *)
Lemma calls_bind (P : Call -> Prop) {E A B} (m : M E A) (f : A -> M E B) :
  (forall w, Forall P (calls (m w))) ->
  (forall a w, Forall P (calls (f a w))) ->
  forall w, Forall P (calls (bind m f w)).
Proof.
  intros Hm Hf w. unfold bind. destruct (outcome (m w)); cbn [calls]; [apply Hm|].
  apply Forall_app. split; [apply Hm | apply Hf].
Qed.

Lemma calls_call (P : Call -> Prop) {E A} (c : Call) (op : World -> (E + A) * World) :
  P c -> forall w, Forall P (calls (call c op w)).
Proof. intros H w. rewrite call_calls. now constructor. Qed.

Lemma calls_getTransactionBytes (P : Call -> Prop) fmt i :
  (forall name, P (CallGetNodeParameter name i)) ->
  forall w, Forall P (calls (getTransactionBytes fmt i w)).
Proof.
  intros H w. apply Forall_forall. intros c Hin.
  apply getTransactionBytes_calls in Hin. destruct Hin as [name ->]. apply H.
Qed.

Lemma executes_app (a b : list Call) : executes (a ++ b) = executes a + executes b.
Proof. unfold executes. now rewrite filter_app, length_app. Qed.

(** The submissions of a [bind] are at most those of its two parts. *)
Lemma executes_bind (a b : nat) {E A B} (m : M E A) (f : A -> M E B) :
  (forall w, executes (calls (m w)) <= a) ->
  (forall x w, executes (calls (f x w)) <= b) ->
  forall w, executes (calls (bind m f w)) <= a + b.
Proof.
  intros Hm Hf w. unfold bind.
  destruct (outcome (m w)) as [e|x]; cbn [calls].
  - specialize (Hm w). lia.
  - rewrite executes_app. specialize (Hm w). specialize (Hf x (world_after (m w))). lia.
Qed.

Lemma executes_getTransactionBytes fmt i w :
  executes (calls (getTransactionBytes fmt i w)) = 0.
Proof.
  unfold executes.
  destruct (filter is_execute (calls (getTransactionBytes fmt i w))) as [|c l] eqn:E;
    [reflexivity|].
  assert (Hin : In c (filter is_execute (calls (getTransactionBytes fmt i w))))
    by (rewrite E; now left).
  apply filter_In in Hin. destruct Hin as [Hin Hc].
  apply getTransactionBytes_calls in Hin. destruct Hin as [name ->]. discriminate Hc.
Qed.

(** Goes through the body of an item, part by part. *)
Ltac every_call :=
  cbv beta zeta;
  lazymatch goal with
  | |- forall w, Forall _ (calls (bind _ _ w)) =>
      apply calls_bind; [every_call | intro; every_call]
  | |- forall w, Forall _ (calls ((if ?b then _ else _) w)) =>
      destruct b; every_call
  | |- forall w, Forall _ (calls (match ?x with Some _ => _ | None => _ end w)) =>
      destruct x; every_call
  | |- forall w, Forall _ (calls (getTransactionBytes _ _ w)) =>
      apply calls_getTransactionBytes; intro; reflexivity
  | |- forall w, Forall _ (calls (getNodeParameter_s _ _ w)) =>
      apply calls_call; reflexivity
  | |- forall w, Forall _ (calls (getNodeParameter_n _ _ w)) =>
      apply calls_call; reflexivity
  | |- forall w, Forall _ (calls (execute_tx _ _ w)) =>
      apply calls_call; reflexivity
  | |- forall w, Forall _ (calls (get_receipt _ _ w)) =>
      apply calls_call; reflexivity
  | |- forall w, Forall _ (calls (generateED25519 w)) =>
      apply calls_call; exact I
  | |- forall w, Forall _ (calls (sign _ _ w)) =>
      apply calls_call; exact I
  | |- forall w, Forall _ (calls _) => intro; constructor
  end.

Lemma item_calls_are_own i :
  forall w, Forall (own_call client i) (calls (processItem accountId privKeyStr client i w)).
Proof. unfold processItem. every_call. Qed.

(** X4. An item reads no parameter of another item, asks for no
    credentials, and reaches the network only through the client it was
    given. *)
Theorem item_keeps_to_itself i w c :
  In c (calls (processItem accountId privKeyStr client i w)) ->
  match c with
  | CallGetCredentials _ => False
  | CallGetNodeParameter _ j => j = i
  | CallExecute _ cl | CallGetReceipt _ cl => cl = client
  | CallGenerateED25519 | CallSign _ _ => True
  end.
Proof.
  intros Hin. pose proof (item_calls_are_own i w) as H.
  rewrite Forall_forall in H. exact (H c Hin).
Qed.

Ltac at_most :=
  cbv beta zeta;
  lazymatch goal with
  | |- forall w, executes (calls (bind (execute_tx _ _) _ w)) <= 1 =>
      apply (executes_bind 1 0);
      [intro; unfold execute_tx; rewrite call_calls; apply Nat.le_refl
      | intro; at_most]
  | |- forall w, executes (calls (bind _ _ w)) <= ?n =>
      apply (executes_bind 0 n); [at_most | intro; at_most]
  | |- forall w, executes (calls ((if ?b then _ else _) w)) <= _ =>
      destruct b; at_most
  | |- forall w, executes (calls (match ?x with Some _ => _ | None => _ end w)) <= _ =>
      destruct x; at_most
  | |- forall w, executes (calls (getTransactionBytes _ _ w)) <= _ =>
      intro; rewrite executes_getTransactionBytes; apply Nat.le_0_l
  | |- forall w, executes (calls (getNodeParameter_s _ _ w)) <= _ =>
      intro; apply Nat.le_0_l
  | |- forall w, executes (calls (getNodeParameter_n _ _ w)) <= _ =>
      intro; apply Nat.le_0_l
  | |- forall w, executes (calls (get_receipt _ _ w)) <= _ =>
      intro; unfold get_receipt; rewrite call_calls; apply Nat.le_0_l
  | |- forall w, executes (calls (generateED25519 w)) <= _ =>
      intro; unfold generateED25519; rewrite call_calls; apply Nat.le_0_l
  | |- forall w, executes (calls (sign _ _ w)) <= _ =>
      intro; unfold sign; rewrite call_calls; apply Nat.le_0_l
  | |- forall w, executes (calls _) <= _ => intro; apply Nat.le_0_l
  end.

(** An item hands at most one transaction to [execute]. *)
Lemma item_executes_once i :
  forall w, executes (calls (processItem accountId privKeyStr client i w)) <= 1.
Proof. unfold processItem. at_most. Qed.

End ItemCalls.

(** *** Which operation does what *)

Section Operations.

Context {World : Type} {sdk : Sdk World} {host : Host World}.

Variables (accountId privKeyStr : string) (client : Client).

(** Takes a call of a run apart: which part of the body made it, and what
    the parts before it returned. *)
Ltac trace_leaf H :=
  lazymatch type of H with
  | In _ (calls (getTransactionBytes _ _ _)) =>
      rewrite (proj1 (getTransactionBytes_calls_world _ _ _)) in H;
      destruct H as [H | []]
  | In _ (calls (lift _ _)) => destruct H
  | In _ (calls (ret _ _)) => destruct H
  | In _ (calls (throw _ _)) => destruct H
  | _ =>
      unfold execute_tx, get_receipt, generateED25519, sign,
        getNodeParameter_s, getNodeParameter_n, getNodeParameter_a in H;
      rewrite call_calls in H; destruct H as [H | []]
  end.

Ltac traced H :=
  cbv beta zeta in H;
  lazymatch type of H with
  | In _ (calls (bind _ _ _)) =>
      let v := fresh "v" in
      let Hv := fresh "Hv" in
      apply bind_calls in H; destruct H as [H | [v [Hv H]]]; [trace_leaf H | traced H]
  | In _ (calls ((if ?c then _ else _) _)) => destruct c eqn:?; traced H
  | In _ (calls (match ?x with Some _ => _ | None => _ end _)) =>
      destruct x eqn:?; traced H
  | _ => trace_leaf H
  end.

(** Turns what the reads returned and what the tests found into equations
    on the parameters. *)
Ltac reads_known :=
  repeat match goal with
    | Hx : outcome (getNodeParameter_s _ _ _) = inr _ |- _ =>
        rewrite read_string in Hx; cbn [outcome] in Hx
    | Hx : outcome (getNodeParameter_n _ _ _) = inr _ |- _ =>
        rewrite read_number in Hx; cbn [outcome] in Hx
    | E : (_ =? _)%string = true |- _ => apply String.eqb_eq in E; subst
    end.

(** X5. Only four operations reach the network: an item that makes a
    network call is an account item with operation [create] or [transfer],
    or a transaction item with operation [submit] or [signAndSubmit].  A
    [sign] item and an item with an unknown resource or operation never
    do. *)
Theorem network_calls_come_from_four_operations i w c :
  In c (calls (processItem accountId privKeyStr client i w)) ->
  is_network_call c = true ->
  (getNodeParameter_string "resource" i = inr "account"
   /\ (getNodeParameter_string "accountOperation" i = inr "create"
       \/ getNodeParameter_string "accountOperation" i = inr "transfer"))
  \/ (getNodeParameter_string "resource" i = inr "transaction"
      /\ (getNodeParameter_string "transactionOperation" i = inr "submit"
          \/ getNodeParameter_string "transactionOperation" i = inr "signAndSubmit")).
Proof.
  intros H Hn. unfold processItem in H. traced H; subst c;
    try discriminate Hn; reads_known; auto.
Qed.

(** Brings what the parts before a call returned into plain form: reads as
    equations on the parameters, worlds as the worlds they are. *)
Ltac known :=
  repeat match goal with
    | Hx : context [getNodeParameter_s _ _ _] |- _ =>
        rewrite read_string in Hx; cbn [outcome world_after] in Hx
    | Hx : context [getNodeParameter_n _ _ _] |- _ =>
        rewrite read_number in Hx; cbn [outcome world_after] in Hx
    | Hx : context [lift _ _] |- _ =>
        unfold lift in Hx; cbn [outcome world_after] in Hx
    | Hx : context [world_after (getTransactionBytes _ _ _)] |- _ =>
        rewrite (proj2 (getTransactionBytes_calls_world _ _ _)) in Hx
    | E : (_ =? _)%string = true |- _ => apply String.eqb_eq in E; subst
    end.

Lemma sign_returned (t : Tx) (key : PrivateKey) w signedTx :
  outcome (sign t key w) = inr signedTx -> fst (Transaction_sign t key w) = inr signedTx.
Proof. unfold sign, call. now destruct (Transaction_sign t key w). Qed.

(** X6. Only [sign] and [signAndSubmit] items sign.  What they sign is the
    transaction deserialized from the bytes of the item, and the key they
    sign it with is the one parsed from the private key of the
    credentials. *)
Theorem signing_is_for_sign_operations i w t key :
  In (CallSign t key) (calls (processItem accountId privKeyStr client i w)) ->
  getNodeParameter_string "resource" i = inr "transaction"
  /\ (getNodeParameter_string "transactionOperation" i = inr "sign"
      \/ getNodeParameter_string "transactionOperation" i = inr "signAndSubmit")
  /\ PrivateKey_fromString privKeyStr = inr key
  /\ exists fmt bytes,
       getNodeParameter_string "transactionFormat" i = inr fmt
       /\ outcome (getTransactionBytes fmt i w) = inr bytes
       /\ Transaction_fromBytes bytes = inr t.
Proof.
  intros H. unfold processItem in H. traced H; try discriminate H;
    injection H as -> ->; known; repeat split; eauto 10.
Qed.

(** X7. The transaction a [submit] item hands to [execute] is the one
    deserialized from its bytes, unsigned by the node; the one a
    [signAndSubmit] item hands over is what signing that transaction
    returned.  No other item executes a deserialized transaction. *)
Theorem submitted_transaction i w t cl :
  In (CallExecute (Deserialized t) cl)
     (calls (processItem accountId privKeyStr client i w)) ->
  getNodeParameter_string "resource" i = inr "transaction"
  /\ exists fmt bytes,
       getNodeParameter_string "transactionFormat" i = inr fmt
       /\ outcome (getTransactionBytes fmt i w) = inr bytes
       /\ ((getNodeParameter_string "transactionOperation" i = inr "submit"
            /\ Transaction_fromBytes bytes = inr t)
           \/ (getNodeParameter_string "transactionOperation" i = inr "signAndSubmit"
               /\ exists t0 key,
                    Transaction_fromBytes bytes = inr t0
                    /\ PrivateKey_fromString privKeyStr = inr key
                    /\ fst (Transaction_sign t0 key w) = inr t)).
Proof.
  intros H. unfold processItem in H. traced H; try discriminate H;
    injection H as -> ->; known.
  - split; [assumption|]. do 2 eexists. split; [eassumption|]. split; [eassumption|].
    left. auto.
  - split; [assumption|]. do 2 eexists. split; [eassumption|]. split; [eassumption|].
    right. split; [assumption|]. do 2 eexists. repeat split; try eassumption.
    now apply sign_returned.
Qed.

(** Takes a run that returned apart. *)
Ltac returned_run H :=
  cbv beta zeta in H;
  lazymatch type of H with
  | outcome (bind _ _ _) = inr _ =>
      let v := fresh "v" in
      let Hv := fresh "Hv" in
      apply bind_ok in H; destruct H as [v [Hv H]]; returned_run H
  | outcome ((if ?c then _ else _) _) = inr _ =>
      destruct c eqn:?; returned_run H
  | outcome (match ?x with Some _ => _ | None => _ end _) = inr _ =>
      destruct x eqn:?; returned_run H
  | outcome (throw _ _) = inr _ => discriminate H
  | outcome (ret _ _) = inr _ => cbn in H; injection H as H
  | _ => idtac
  end.

Lemma base64_read_back j w (b : Buffer) :
  getNodeParameter_string "transaction" j = inr (Buffer_toString_base64 b) ->
  outcome (getTransactionBytes "base64" j w) = inr b.
Proof.
  intros Hs. unfold getTransactionBytes. cbn [String.eqb Ascii.eqb Bool.eqb].
  rewrite (bind_read_string _ _ _ _ _ Hs). unfold ret. cbn [outcome].
  now rewrite decode_encode.
Qed.

(** X8. The [signedTransaction] of a returned record is the base64 text of
    the bytes of the transaction that signing returned; an item that is
    given this text as its [transaction] in base64 mode reads exactly those
    bytes back. *)
Theorem signed_transaction_reads_back i w result s :
  outcome (processItem accountId privKeyStr client i w) = inr result ->
  In ("signedTransaction", s) result ->
  exists t key signedTx signedBytes,
    fst (Transaction_sign t key w) = inr signedTx
    /\ Transaction_toBytes signedTx = inr signedBytes
    /\ s = Buffer_toString_base64 signedBytes
    /\ forall j w',
         getNodeParameter_string "transaction" j = inr s ->
         outcome (getTransactionBytes "base64" j w') = inr signedBytes.
Proof.
  intros H Hin. unfold processItem in H. returned_run H; subst result;
    cbn [In] in Hin;
    repeat match goal with
      | Hx : _ \/ _ |- _ => destruct Hx as [Hx | Hx]
      | Hx : (_, _) = (_, _) |- _ => try discriminate Hx; injection Hx as Hx
      | Hx : False |- _ => destruct Hx
      end;
    subst s; known.
  - do 4 eexists. split; [apply sign_returned; eassumption|].
    split; [eassumption|]. split; [reflexivity|].
    intros j w'. apply base64_read_back.
  - match goal with
    | Hs : outcome (sign _ _ _) = inr _ |- _ => apply sign_returned in Hs
    end.
    do 4 eexists. split; [eassumption|].
    split; [eassumption|]. split; [reflexivity|].
    intros j w'. apply base64_read_back.
Qed.

(** A record that an item returned has no field called [error]. *)
Lemma success_has_no_error_field i w result :
  outcome (processItem accountId privKeyStr client i w) = inr result ->
  ~ In "error" (map fst result).
Proof.
  intros H. unfold processItem in H. returned_run H; subst result; cbn;
    intros Hin;
    repeat match goal with
      | Hx : _ \/ _ |- _ => destruct Hx as [Hx | Hx]
      | Hx : _ = _ |- _ => discriminate Hx
      | Hx : False |- _ => destruct Hx
      end.
Qed.

(** X9. In continue-on-fail mode the record of an item has a field called
    [error] exactly when the body of the item threw: no successful
    operation writes such a field. *)
Theorem error_records_are_told_apart i w :
  (exists err, outcome (processItem accountId privKeyStr client i w) = inl err)
  <-> In "error"
         (map fst (json (record_of (processItem accountId privKeyStr client i w)))).
Proof.
  unfold record_of.
  destruct (outcome (processItem accountId privKeyStr client i w)) as [err|result] eqn:E.
  - cbn. split; [auto | eauto].
  - cbn [json]. split.
    + intros [err H]. discriminate H.
    + intros Hin. exfalso. exact (success_has_no_error_field _ _ _ E Hin).
Qed.

(** The property of a read parameter is there and is displayed. *)
Ltac displayed_now :=
  eexists; split; [reflexivity|];
  unfold Description.displayed, item_value; cbn;
  repeat match goal with
    | Hx : getNodeParameter_string _ _ = inr _ |- _ => rewrite Hx
    end;
  reflexivity.

(** X19. An item that keeps to the options of the description reads only
    parameters that the description declares and displays for it: for every
    parameter the item reads there is a property of that name whose
    [displayOptions.show] holds under the values of the item. *)
Theorem reads_are_displayed i w parameter j :
  conforming i ->
  In (CallGetNodeParameter parameter j)
     (calls (processItem accountId privKeyStr client i w)) ->
  exists p,
    Description.property parameter = Some p
    /\ Description.displayed (item_value i) p = true.
Proof.
  intros Hconf H. unfold processItem in H. traced H; try discriminate H;
    injection H as <- <-; known.
  all: try solve [displayed_now].
  all: try match goal with
    | Ho : getNodeParameter_string "transactionOperation" _ = inr ?op |- _ =>
        let Hin := fresh "Hin" in
        pose proof (Hconf "transactionOperation" op
                      ltac:(cbn; tauto) Ho) as Hin;
        cbn in Hin;
        destruct Hin as [<- | [<- | [<- | []]]]
    end.
  all: try solve [displayed_now].
  all: match goal with
    | Hf : getNodeParameter_string "transactionFormat" _ = inr ?fmt |- _ =>
        let Hin := fresh "Hin" in
        pose proof (Hconf "transactionFormat" fmt ltac:(cbn; tauto) Hf) as Hin;
        cbn in Hin;
        destruct Hin as [<- | [<- | []]]
    end.
  all: displayed_now.
Qed.

End Operations.

(** *** What an account item returns *)

Section AccountItems.

Context {World : Type} {sdk : Sdk World} {host : Host World}.

Variables (accountId privKeyStr : string) (client : Client).

Lemma or_default_empty (s : string) : or_default s EmptyString = s.
Proof. unfold or_default. destruct s; reflexivity. Qed.

(** A part that returned [a] in world [w'] hands both on. *)
Lemma bind_step {E A B} (m : M E A) (f : A -> M E B) w a w' cs :
  m w = mkRun (inr a) w' cs -> outcome (bind m f w) = outcome (f a w').
Proof. intros H. unfold bind. now rewrite H. Qed.

Lemma read_string_run name i w v :
  getNodeParameter_string name i = inr v ->
  getNodeParameter_s name i w = mkRun (inr v) w [CallGetNodeParameter name i].
Proof. intros H. now rewrite read_string, H. Qed.

Lemma read_number_run name i w v :
  getNodeParameter_number name i = inr v ->
  getNodeParameter_n name i w = mkRun (inr v) w [CallGetNodeParameter name i].
Proof. intros H. now rewrite read_number, H. Qed.

Lemma call_run {E A} (c : Call) (op : World -> (E + A) * World) w r w' :
  op w = (r, w') -> call c op w = mkRun r w' [c].
Proof. intros H. unfold call. now rewrite H. Qed.

(** The outcome of a create item whose calls all returned. *)
Lemma create_outcome i w initialBalance h k w1 response w2 receipt w3 :
  getNodeParameter_string "resource" i = inr "account" ->
  getNodeParameter_string "accountOperation" i = inr "create" ->
  getNodeParameter_number "initialBalance" i = inr initialBalance ->
  Hbar_new initialBalance = inr h ->
  PrivateKey_generateED25519 w = (k, w1) ->
  AccountCreateTransaction_execute (publicKey k) h client w1 = (inr response, w2) ->
  getReceipt response client w2 = (inr receipt, w3) ->
  outcome (processItem accountId privKeyStr client i w)
  = match receipt_accountId receipt with
    | None =>
        inl (NodeOperationError ("Account creation failed: " ++ receipt_status receipt))
    | Some newAccountId =>
        inr [ ("newAccountId", newAccountId);
              ("newAccountPublicKey", PublicKey_toString (publicKey k));
              ("newAccountPrivateKey", PrivateKey_toString k) ]
    end.
Proof.
  intros Hres Hop Hbal Hh Hgen Hex Hrc. unfold processItem.
  rewrite (bind_step _ _ _ _ _ _ (read_string_run _ _ _ _ Hres)). cbv beta.
  cbn [String.eqb Ascii.eqb Bool.eqb].
  rewrite (bind_step _ _ _ _ _ _ (read_string_run _ _ _ _ Hop)). cbv beta.
  cbn [String.eqb Ascii.eqb Bool.eqb].
  rewrite (bind_step _ _ _ _ _ _ (read_number_run _ _ _ _ Hbal)). cbv beta.
  erewrite bind_step;
    [|unfold generateED25519; apply call_run; rewrite Hgen; reflexivity].
  cbv beta zeta.
  erewrite bind_step; [|unfold lift; rewrite Hh; reflexivity]. cbv beta.
  erewrite bind_step; [|unfold execute_tx; apply call_run; exact Hex]. cbv beta.
  erewrite bind_step; [|unfold get_receipt; apply call_run; exact Hrc]. cbv beta.
  destruct (receipt_accountId receipt); reflexivity.
Qed.

(** X10. The record of a created account carries the account id of the
    receipt and the two halves of one key pair: the private key that was
    generated for this item, and the public key derived from it, which is
    the key the executed transaction was built with. *)
Theorem create_returns_generated_keys
    i w initialBalance h k w1 response w2 receipt w3 newAccountId :
  getNodeParameter_string "resource" i = inr "account" ->
  getNodeParameter_string "accountOperation" i = inr "create" ->
  getNodeParameter_number "initialBalance" i = inr initialBalance ->
  Hbar_new initialBalance = inr h ->
  PrivateKey_generateED25519 w = (k, w1) ->
  AccountCreateTransaction_execute (publicKey k) h client w1 = (inr response, w2) ->
  getReceipt response client w2 = (inr receipt, w3) ->
  receipt_accountId receipt = Some newAccountId ->
  outcome (processItem accountId privKeyStr client i w)
  = inr [ ("newAccountId", newAccountId);
          ("newAccountPublicKey", PublicKey_toString (publicKey k));
          ("newAccountPrivateKey", PrivateKey_toString k) ].
Proof.
  intros Hres Hop Hbal Hh Hgen Hex Hrc Hid.
  rewrite (create_outcome _ _ _ _ _ _ _ _ _ _ Hres Hop Hbal Hh Hgen Hex Hrc).
  now rewrite Hid.
Qed.

(** X11. When the receipt of an account creation carries no account id, the
    item throws the node's operation error with the status of the receipt
    in its message, although the transaction was executed. *)
Theorem create_without_account_id_fails
    i w initialBalance h k w1 response w2 receipt w3 :
  getNodeParameter_string "resource" i = inr "account" ->
  getNodeParameter_string "accountOperation" i = inr "create" ->
  getNodeParameter_number "initialBalance" i = inr initialBalance ->
  Hbar_new initialBalance = inr h ->
  PrivateKey_generateED25519 w = (k, w1) ->
  AccountCreateTransaction_execute (publicKey k) h client w1 = (inr response, w2) ->
  getReceipt response client w2 = (inr receipt, w3) ->
  receipt_accountId receipt = None ->
  outcome (processItem accountId privKeyStr client i w)
  = inl (NodeOperationError ("Account creation failed: " ++ receipt_status receipt))
  /\ In (CallExecute (AccountCreateTransaction (publicKey k) h) client)
        (calls (processItem accountId privKeyStr client i w)).
Proof.
  intros Hres Hop Hbal Hh Hgen Hex Hrc Hid. split.
  - rewrite (create_outcome _ _ _ _ _ _ _ _ _ _ Hres Hop Hbal Hh Hgen Hex Hrc).
    now rewrite Hid.
  - pose proof (create_reaches_execute accountId privKeyStr client i w _ _
                  Hres Hop Hbal Hh) as Hin.
    rewrite Hgen in Hin. exact Hin.
Qed.

(** X12. A transfer whose execution and receipt both return gives a record
    with the status of that receipt and the transaction id of that
    response.  The list that is executed is the one the two additions
    leave: the operator with the negated amount, then the recipient with the
    amount, merged by the SDK into one entry when the recipient is the
    operator account. *)
Theorem transfer_reports_receipt_status
    i w recipientId amount h sender recipient response w2 receipt w3 :
  getNodeParameter_string "resource" i = inr "account" ->
  getNodeParameter_string "accountOperation" i = inr "transfer" ->
  getNodeParameter_string "recipientId" i = inr recipientId ->
  getNodeParameter_number "amount" i = inr amount ->
  Hbar_new amount = inr h ->
  AccountId_fromString accountId = inr sender ->
  AccountId_fromString recipientId = inr recipient ->
  TransferTransaction_execute
    (add_transfer (add_transfer [] sender (negated h)) recipient h) client w
  = (inr response, w2) ->
  getReceipt response client w2 = (inr receipt, w3) ->
  outcome (processItem accountId privKeyStr client i w)
  = inr [ ("status", receipt_status receipt);
          ("transactionId", transactionId response) ].
Proof.
  intros Hres Hop Hrec Ham Hh Hs Hr Hex Hrc. unfold processItem.
  rewrite (bind_step _ _ _ _ _ _ (read_string_run _ _ _ _ Hres)). cbv beta.
  cbn [String.eqb Ascii.eqb Bool.eqb].
  rewrite (bind_step _ _ _ _ _ _ (read_string_run _ _ _ _ Hop)). cbv beta.
  cbn [String.eqb Ascii.eqb Bool.eqb].
  rewrite (bind_step _ _ _ _ _ _ (read_string_run _ _ _ _ Hrec)). cbv beta.
  rewrite (bind_step _ _ _ _ _ _ (read_number_run _ _ _ _ Ham)). cbv beta.
  erewrite bind_step; [|unfold lift; rewrite Hh; reflexivity]. cbv beta.
  erewrite bind_step;
    [|unfold lift, addHbarTransfer; rewrite Hs; reflexivity]. cbv beta.
  erewrite bind_step;
    [|unfold lift, addHbarTransfer; rewrite Hr; reflexivity]. cbv beta.
  erewrite bind_step; [|unfold execute_tx; apply call_run; exact Hex]. cbv beta.
  erewrite bind_step; [|unfold get_receipt; apply call_run; exact Hrc]. cbv beta.
  unfold ret. cbn [outcome]. now rewrite or_default_empty.
Qed.

End AccountItems.

(** *** The calls of a batch *)

Section BatchCalls.

Context {World : Type} {sdk : Sdk World} {host : Host World}.

(** A turn of the loop makes the calls of the body of its item and leaves
    the world the body left, in either mode. *)
Lemma iteration_calls_world accountId privKeyStr client i returnData w :
  calls (iteration accountId privKeyStr client i returnData w)
  = calls (processItem accountId privKeyStr client i w)
  /\ world_after (iteration accountId privKeyStr client i returnData w)
     = world_after (processItem accountId privKeyStr client i w).
Proof.
  unfold iteration, try_catch, bind.
  destruct (outcome (processItem accountId privKeyStr client i w)); cbn;
    [destruct continueOnFail; cbn|]; now rewrite ?app_nil_r.
Qed.

Variables (accountId privKeyStr : string) (client : Client).

(** In continue-on-fail mode the loop makes the calls of its items one
    after the other. *)
Lemma loop_continue_calls remaining :
  continueOnFail = true ->
  forall i returnData w,
    calls (loop accountId privKeyStr client remaining i returnData w)
    = concat (map calls (item_runs accountId privKeyStr client remaining i w))
    /\ world_after (loop accountId privKeyStr client remaining i returnData w)
       = world_after_runs w (item_runs accountId privKeyStr client remaining i w).
Proof.
  intros Hc. induction remaining as [|n IH]; intros i returnData w.
  - cbn. auto.
  - cbn [loop item_runs map concat].
    destruct (iteration_continue accountId privKeyStr client i returnData w Hc)
      as [Ho _].
    destruct (iteration_calls_world accountId privKeyStr client i returnData w)
      as [Hcalls Hw].
    rewrite (bind_inr _ _ _ _ Ho). cbn [calls world_after].
    rewrite Hcalls, Hw.
    destruct (IH (S i)
                (returnData ++ [record_of (processItem accountId privKeyStr client i w)])
                (world_after (processItem accountId privKeyStr client i w)))
      as [IHc IHw].
    rewrite IHc, IHw. split; reflexivity.
Qed.

(** In fail-fast mode the loop makes the calls of its items up to the first
    one that throws, and stops there. *)
Lemma loop_fail_fast_calls remaining :
  continueOnFail = false ->
  forall i returnData w k r err,
    nth_error (item_runs accountId privKeyStr client remaining i w) k = Some r ->
    outcome r = inl err ->
    (forall j rj, j < k ->
       nth_error (item_runs accountId privKeyStr client remaining i w) j = Some rj ->
       exists result, outcome rj = inr result) ->
    calls (loop accountId privKeyStr client remaining i returnData w)
    = concat (map calls
                (firstn (S k) (item_runs accountId privKeyStr client remaining i w)))
    /\ world_after (loop accountId privKeyStr client remaining i returnData w)
       = world_after r.
Proof.
  intros Hc. induction remaining as [|n IH]; intros i returnData w k r err Hk Hr Hbefore.
  - destruct k; discriminate.
  - cbn [loop]. cbn [item_runs] in Hk, Hbefore |- *.
    pose proof (iteration_fail_fast accountId privKeyStr client i returnData w Hc) as Hit.
    cbn zeta in Hit.
    destruct (iteration_calls_world accountId privKeyStr client i returnData w)
      as [Hcalls Hw].
    destruct k as [|k].
    + cbn in Hk. injection Hk as <-. rewrite Hr in Hit.
      rewrite (bind_inl _ _ _ _ Hit). cbn [calls world_after firstn map concat].
      rewrite Hcalls, Hw, app_nil_r. auto.
    + destruct (Hbefore 0 _ (Nat.lt_0_succ k) eq_refl) as [result Hres].
      rewrite Hres in Hit. destruct Hit as [Ho _].
      rewrite (bind_inr _ _ _ _ Ho). cbn [calls world_after]. rewrite Hcalls, Hw.
      cbn [nth_error] in Hk.
      destruct (IH (S i) (returnData ++ [ {| json := result |} ])
                  (world_after (processItem accountId privKeyStr client i w))
                  k r err Hk Hr) as [IHc IHw].
      { intros j rj Hj Hnth. apply (Hbefore (S j) rj); [lia | exact Hnth]. }
      rewrite IHc, IHw.
      change (firstn (S (S k)) (?x :: ?l)) with (x :: firstn (S k) l).
      cbn [map concat]. auto.
Qed.

(** What holds of the calls of every item holds of the calls of the loop,
    in either mode. *)
Lemma loop_calls (P : Call -> Prop) remaining :
  forall i,
    (forall j w, i <= j < i + remaining ->
       Forall P (calls (processItem accountId privKeyStr client j w))) ->
    forall returnData w,
      Forall P (calls (loop accountId privKeyStr client remaining i returnData w)).
Proof.
  induction remaining as [|n IH]; intros i Hitems returnData w.
  - constructor.
  - cbn [loop]. revert w. apply calls_bind.
    + intros w.
      rewrite (proj1 (iteration_calls_world accountId privKeyStr client i returnData w)).
      apply Hitems. lia.
    + intros returnData' w. apply IH. intros j w' Hj. apply Hitems. lia.
Qed.

(** The loop hands at most one transaction per item to [execute]. *)
Lemma loop_executes remaining :
  forall i returnData w,
    executes (calls (loop accountId privKeyStr client remaining i returnData w))
    <= remaining.
Proof.
  induction remaining as [|n IH]; intros i returnData w.
  - apply Nat.le_0_l.
  - cbn [loop]. revert w. apply (executes_bind 1 n).
    + intros w.
      rewrite (proj1 (iteration_calls_world accountId privKeyStr client i returnData w)).
      apply item_executes_once.
    + intros returnData' w. apply IH.
Qed.

(** Once set up, [execute] has asked for the credentials and then makes the
    calls of the loop. *)
Lemma execute_configured_calls w w1 :
  configured w accountId privKeyStr client w1 ->
  calls (execute w)
  = CallGetCredentials "hederaApi"
      :: calls (loop accountId privKeyStr client (length getInputData) 0 [] w1)
  /\ world_after (execute w)
     = world_after (loop accountId privKeyStr client (length getInputData) 0 [] w1).
Proof.
  intros [creds [Hc [Ha [Hna [Hk [Hnk Hop]]]]]].
  apply String.eqb_neq in Hna, Hnk.
  unfold execute, bind, uncaught, try_catch, call, lift.
  rewrite Hc. cbn. rewrite Ha, Hk. cbn. rewrite Hna, Hnk. cbn.
  rewrite Hop. cbn.
  destruct (outcome (loop _ _ _ _ _ _ _)); cbn; now rewrite ?app_nil_r.
Qed.

End BatchCalls.

(** *** Batches, call by call *)

Section BatchTheorems.

Context {World : Type} {sdk : Sdk World} {host : Host World}.

(** X13. On an empty input [execute], once set up, returns
    [prepareOutputData] of no record; it has asked for the credentials and
    made no other call. *)
Theorem empty_batch w accountId privKeyStr client w1 :
  configured w accountId privKeyStr client w1 ->
  getInputData = [] ->
  execute w
  = mkRun (inr (prepareOutputData [])) w1 [CallGetCredentials "hederaApi"].
Proof.
  intros Hconf Hempty.
  pose proof (execute_configured _ _ _ _ _ Hconf) as Ho.
  destruct (execute_configured_calls _ _ _ _ _ Hconf) as [Hc Hw].
  rewrite Hempty in Ho, Hc, Hw. cbn in Ho, Hc, Hw.
  destruct (execute w) as [o w' cs]. cbn in Ho, Hc, Hw. now subst.
Qed.

(** X14. An error of the set-up is not a failure of an item: when asking
    for the credentials throws, or when the client does not take the
    account id and private key as its operator, [execute] throws that very
    error, unwrapped, in either mode and before any item is read. *)
Theorem setup_failure_is_not_isolated w :
  (forall err w1,
      getCredentials "hederaApi" w = (inl err, w1) ->
      execute w = mkRun (inl (Uncaught err)) w1 [CallGetCredentials "hederaApi"])
  /\ (forall creds accountId privKeyStr err w1,
        getCredentials "hederaApi" w = (inr (Some creds), w1) ->
        cred_accountId creds = Some accountId -> accountId <> EmptyString ->
        cred_privateKey creds = Some privKeyStr -> privKeyStr <> EmptyString ->
        Client_setOperator (client_for (cred_network creds)) accountId privKeyStr
        = inl err ->
        execute w = mkRun (inl (Uncaught err)) w1 [CallGetCredentials "hederaApi"]).
Proof.
  split.
  - intros err w1 Hc.
    unfold execute, bind, uncaught, try_catch, call, throw. rewrite Hc. reflexivity.
  - intros creds accountId privKeyStr err w1 Hc Ha Hna Hk Hnk Hop.
    apply String.eqb_neq in Hna, Hnk.
    unfold execute, bind, uncaught, try_catch, call, lift, throw.
    rewrite Hc. cbn. rewrite Ha, Hk. cbn. rewrite Hna, Hnk. cbn.
    rewrite Hop. reflexivity.
Qed.

(** X15. In continue-on-fail mode the items are processed one after the
    other: the calls of [execute] are the request for the credentials
    followed by the calls of item 0, then those of item 1, and so on, each
    item starting in the world the one before it left; [execute] leaves the
    world the last item left. *)
Theorem continue_mode_runs_in_order w accountId privKeyStr client w1 :
  continueOnFail = true ->
  configured w accountId privKeyStr client w1 ->
  let runs := item_runs accountId privKeyStr client (length getInputData) 0 w1 in
  calls (execute w) = CallGetCredentials "hederaApi" :: concat (map calls runs)
  /\ world_after (execute w) = world_after_runs w1 runs.
Proof.
  intros Hc Hconf runs.
  destruct (execute_configured_calls _ _ _ _ _ Hconf) as [-> ->].
  destruct (loop_continue_calls accountId privKeyStr client (length getInputData)
              Hc 0 [] w1) as [-> ->].
  auto.
Qed.

(** X16. In fail-fast mode, when item [k] is the first whose body throws,
    the calls of [execute] are the request for the credentials followed by
    the calls of the items 0 to [k] and nothing more: no later item is read,
    and what the items before [k] did to the world stays done. *)
Theorem fail_fast_stops_at_first_failure w accountId privKeyStr client w1 k r err :
  continueOnFail = false ->
  configured w accountId privKeyStr client w1 ->
  let runs := item_runs accountId privKeyStr client (length getInputData) 0 w1 in
  nth_error runs k = Some r ->
  outcome r = inl err ->
  (forall j rj, j < k -> nth_error runs j = Some rj ->
     exists result, outcome rj = inr result) ->
  calls (execute w)
  = CallGetCredentials "hederaApi" :: concat (map calls (firstn (S k) runs))
  /\ world_after (execute w) = world_after r.
Proof.
  intros Hc Hconf runs Hk Hr Hbefore.
  destruct (execute_configured_calls _ _ _ _ _ Hconf) as [-> ->].
  destruct (loop_fail_fast_calls accountId privKeyStr client (length getInputData)
              Hc 0 [] w1 k r err Hk Hr Hbefore) as [-> ->].
  auto.
Qed.

(** X17. Whatever the items are and in either mode, every call of a batch
    that was set up stays within the batch: the credentials asked for are
    the ones the description declares, every parameter is read at an index
    below the number of items, and every network call goes through the one
    client that was set up. *)
Theorem batch_keeps_to_its_items w accountId privKeyStr client w1 c :
  configured w accountId privKeyStr client w1 ->
  In c (calls (execute w)) ->
  match c with
  | CallGetCredentials credential =>
      In credential
         (map Description.credential_name (Description.credentials Description.node))
  | CallGetNodeParameter _ j => j < length getInputData
  | CallExecute _ cl | CallGetReceipt _ cl => cl = client
  | CallGenerateED25519 | CallSign _ _ => True
  end.
Proof.
  intros Hconf Hin.
  rewrite (proj1 (execute_configured_calls _ _ _ _ _ Hconf)) in Hin.
  destruct Hin as [<- | Hin]; [cbn; auto|].
  assert (H : Forall (batch_call client (length getInputData))
                (calls (loop accountId privKeyStr client (length getInputData) 0 [] w1))).
  { apply loop_calls. intros j w' Hj.
    eapply Forall_impl; [|apply item_calls_are_own].
    intros [] Hown; cbn in Hown |- *; try tauto; subst; lia. }
  rewrite Forall_forall in H. exact (H c Hin).
Qed.

(** X18. [execute] hands at most one transaction per item to the network:
    the number of executions in a batch never exceeds the number of items,
    in either mode and whatever fails. *)
Theorem one_submission_per_item w :
  executes (calls (execute w)) <= length getInputData.
Proof.
  revert w. unfold execute. cbv zeta.
  apply (executes_bind 0 (length getInputData)).
  - intros w. unfold uncaught, try_catch, call.
    destruct (getCredentials "hederaApi" w) as [[e|x] w']; cbn; apply Nat.le_0_l.
  - intros [creds|] w; [|apply Nat.le_0_l].
    destruct (falsy (cred_accountId creds) || falsy (cred_privateKey creds));
      [apply Nat.le_0_l|].
    revert w. apply (executes_bind 0 (length getInputData)).
    + intros w. unfold uncaught, try_catch, lift.
      destruct (Client_setOperator _ _ _); cbn; apply Nat.le_0_l.
    + intros client w. eapply Nat.le_trans; [|apply Nat.eq_le_incl, Nat.add_0_r].
      revert w. apply (executes_bind (length getInputData) 0).
      * intros w. apply loop_executes.
      * intros returnData w. apply Nat.le_0_l.
Qed.

End BatchTheorems.

(** *** The node against its first version *)

Section Versions.

Context {World : Type} {sdk : Sdk World} {host : Host World}.

(** What a [bind] returned and the world it left, by its first part. *)
Lemma bind_result {E A B} (m : M E A) (f : A -> M E B) w :
  (outcome (bind m f w), world_after (bind m f w))
  = match outcome (m w) with
    | inl e => (inl e, world_after (m w))
    | inr a => (outcome (f a (world_after (m w))), world_after (f a (world_after (m w))))
    end.
Proof. unfold bind. destruct (outcome (m w)); reflexivity. Qed.

Lemma bind_assoc_result {E A B C} (m : M E A) (f : A -> M E B) (g : B -> M E C) w :
  (outcome (bind (bind m f) g w), world_after (bind (bind m f) g w))
  = (outcome (bind m (fun a => bind (f a) g) w),
     world_after (bind m (fun a => bind (f a) g) w)).
Proof.
  unfold bind. destruct (outcome (m w)) as [e|a]; cbn [outcome world_after]; [reflexivity|].
  destruct (outcome (f a (world_after (m w)))); reflexivity.
Qed.

Lemma pair_eq {A B} (a a' : A) (b b' : B) : (a, b) = (a', b') -> a = a' /\ b = b'.
Proof. intros H. now injection H. Qed.

Variables (accountId privKeyStr : string) (client : Client).

(** On an item the first version knows, both bodies return or throw the
    same and leave the same world. *)
Lemma items_agree i w :
  known_to_v1 i ->
  outcome (processItem_v1 accountId privKeyStr client i w)
  = outcome (processItem accountId privKeyStr client i w)
  /\ world_after (processItem_v1 accountId privKeyStr client i w)
     = world_after (processItem accountId privKeyStr client i w).
Proof.
  intros Hknown. apply pair_eq. unfold processItem_v1, processItem.
  rewrite !bind_result, read_string. cbn [outcome world_after].
  destruct (getNodeParameter_string "resource" i) as [e|r] eqn:Hres; [reflexivity|].
  cbv beta.
  destruct (r =? "account")%string eqn:Ea; [reflexivity|].
  destruct (r =? "transaction")%string eqn:Et; [|reflexivity].
  apply String.eqb_eq in Et. subst r.
  destruct Hknown as [Hnot | [Hs [Hss Hf]]]; [contradiction|].
  rewrite !bind_result, read_string. cbn [outcome world_after].
  destruct (getNodeParameter_string "transactionOperation" i) as [e|op] eqn:Hop;
    [reflexivity|].
  cbv beta. rewrite bind_result, read_string, Hf. cbn [outcome world_after]. cbv beta.
  destruct (op =? "sign")%string eqn:Es.
  - unfold getTransactionBytes. cbn [String.eqb Ascii.eqb Bool.eqb].
    rewrite bind_assoc_result. rewrite !bind_result, read_string.
    cbn [outcome world_after].
    destruct (getNodeParameter_string "transaction" i) as [e|txBase64]; [reflexivity|].
    cbv beta zeta. rewrite (bind_result (ret _)). reflexivity.
  - assert (Hsub : (op =? "submit")%string = false).
    { apply String.eqb_neq. intros ->. now apply Hs. }
    assert (Hsas : (op =? "signAndSubmit")%string = false).
    { apply String.eqb_neq. intros ->. now apply Hss. }
    rewrite Hsub, Hsas. reflexivity.
Qed.

Lemma iterations_agree i returnData w :
  known_to_v1 i ->
  outcome (iteration_v1 accountId privKeyStr client i returnData w)
  = outcome (iteration accountId privKeyStr client i returnData w)
  /\ world_after (iteration_v1 accountId privKeyStr client i returnData w)
     = world_after (iteration accountId privKeyStr client i returnData w).
Proof.
  intros Hknown. destruct (items_agree i w Hknown) as [Ho Hw].
  unfold iteration_v1, iteration, try_catch, bind. rewrite Ho, Hw.
  destruct (outcome (processItem accountId privKeyStr client i w)); cbn;
    [destruct continueOnFail|]; auto.
Qed.

Lemma loops_agree remaining :
  forall i,
    (forall j, i <= j < i + remaining -> known_to_v1 j) ->
    forall returnData w,
      outcome (loop_v1 accountId privKeyStr client remaining i returnData w)
      = outcome (loop accountId privKeyStr client remaining i returnData w)
      /\ world_after (loop_v1 accountId privKeyStr client remaining i returnData w)
         = world_after (loop accountId privKeyStr client remaining i returnData w).
Proof.
  induction remaining as [|n IH]; intros i Hknown returnData w; [split; reflexivity|].
  apply pair_eq. cbn [loop_v1 loop]. rewrite !bind_result.
  destruct (iterations_agree i returnData w (Hknown i ltac:(lia))) as [-> ->].
  destruct (outcome (iteration accountId privKeyStr client i returnData w));
    [reflexivity|].
  destruct (IH (S i) (fun j Hj => Hknown j ltac:(lia)) l
              (world_after (iteration accountId privKeyStr client i returnData w)))
    as [-> ->].
  reflexivity.
Qed.

End Versions.

Section VersionTheorem.

Context {World : Type} {sdk : Sdk World} {host : Host World}.

(** X20. On a batch of items that the first version of the node knows
    (account items, items of an unknown resource, and transaction items in
    base64 format whose operation is not [submit] or [signAndSubmit]), the
    node returns or throws exactly what its first version does, and leaves
    the same world. *)
Theorem agrees_with_first_version w :
  (forall i, i < length getInputData -> known_to_v1 i) ->
  outcome (execute_v1 w) = outcome (execute w)
  /\ world_after (execute_v1 w) = world_after (execute w).
Proof.
  intros Hknown. apply pair_eq. unfold execute_v1, execute. cbv zeta.
  rewrite !bind_result.
  destruct (outcome (uncaught _ w)) as [e|[creds|]]; try reflexivity.
  destruct (falsy (cred_accountId creds) || falsy (cred_privateKey creds));
    [reflexivity|].
  rewrite !bind_result.
  destruct (outcome (uncaught (lift _) _)) as [e|client]; [reflexivity|].
  rewrite !bind_result.
  match goal with
  | |- context [loop ?a ?k client ?n 0 [] ?w1] =>
      destruct (loops_agree a k client n 0
                  (fun j Hj => Hknown j ltac:(lia)) [] w1) as [-> ->]
  end.
  destruct (outcome (loop _ _ _ _ _ _ _)); reflexivity.
Qed.

End VersionTheorem.

(** *** Input the node does not turn down, and input it does *)

Section Malformed.

Context {World : Type} {sdk : Sdk World} {host : Host World}.

Lemma numbers_of_integers (zs : list Z) :
  numbers_of (map (fun z => JNum (number_of_Z z)) zs) = Some (map number_of_Z zs).
Proof.
  induction zs as [|z zs IH]; [reflexivity|].
  cbn [map numbers_of]. now rewrite IH.
Qed.

Lemma ToUint8_integer (z : Z) :
  ToUint8 (number_of_Z z) = byte_of_N (Z.to_N (z mod 256)).
Proof. unfold ToUint8, number_of_Z. cbn [mantissa scale Z.of_nat]. now rewrite Z.quot_1_r. Qed.

(** X21. In buffer mode the numbers of the [data] array are not checked
    against the range of an octet: every integer is taken modulo 256, so
    256 reads as 0 and -1 as 255, and nothing is thrown. *)
Theorem out_of_range_octets_wrap fmt i w (zs : list Z) fields :
  fmt <> "base64" ->
  getNodeParameter_any "transactionBuffer" i = inr (JObj fields) ->
  lookup "data" fields = JArr (map (fun z => JNum (number_of_Z z)) zs) ->
  outcome (getTransactionBytes fmt i w)
  = inr (map (fun z => byte_of_N (Z.to_N (z mod 256))) zs).
Proof.
  intros Hf Ha Hd. rewrite (getTransactionBytes_buffer _ _ _ _ Hf Ha).
  cbn [outcome opt_get]. rewrite Hd. cbn [truthy].
  unfold Buffer_from. rewrite numbers_of_integers, map_map.
  f_equal. apply map_ext. exact ToUint8_integer.
Qed.

(** A part that returned hands on to the rest; the calls add up. *)
Lemma bind_step_run {E A B} (m : M E A) (f : A -> M E B) w a w' cs :
  m w = mkRun (inr a) w' cs ->
  bind m f w
  = mkRun (outcome (f a w')) (world_after (f a w')) (cs ++ calls (f a w')).
Proof. intros H. unfold bind. now rewrite H. Qed.

Lemma bind_stop_run {E A B} (m : M E A) (f : A -> M E B) w e w' cs :
  m w = mkRun (inl e) w' cs -> bind m f w = mkRun (inl e) w' cs.
Proof. intros H. unfold bind. now rewrite H. Qed.

Lemma getTransactionBytes_run fmt i w o :
  outcome (getTransactionBytes fmt i w) = o ->
  getTransactionBytes fmt i w
  = mkRun o w
      [CallGetNodeParameter
         (if (fmt =? "base64")%string then "transaction" else "transactionBuffer") i].
Proof.
  intros Ho. destruct (getTransactionBytes_calls_world fmt i w) as [Hc Hw].
  destruct (getTransactionBytes fmt i w) as [o' w' cs]. cbn in Ho, Hc, Hw. now subst.
Qed.

Variables (accountId privKeyStr : string) (client : Client).

(** X22. Bytes that the SDK does not deserialize are neither signed nor
    submitted: a [sign], [submit] or [signAndSubmit] item whose bytes make
    [Transaction.fromBytes] throw ends with that error after its four
    parameter reads, in the world it started in. *)
Theorem undecodable_bytes_go_nowhere i w operation fmt bytes err :
  getNodeParameter_string "resource" i = inr "transaction" ->
  getNodeParameter_string "transactionOperation" i = inr operation ->
  operation = "sign" \/ operation = "submit" \/ operation = "signAndSubmit" ->
  getNodeParameter_string "transactionFormat" i = inr fmt ->
  outcome (getTransactionBytes fmt i w) = inr bytes ->
  Transaction_fromBytes bytes = inl err ->
  processItem accountId privKeyStr client i w
  = mkRun (inl err) w
      [ CallGetNodeParameter "resource" i;
        CallGetNodeParameter "transactionOperation" i;
        CallGetNodeParameter "transactionFormat" i;
        CallGetNodeParameter
          (if (fmt =? "base64")%string then "transaction" else "transactionBuffer") i ].
Proof.
  intros Hres Hop Hsup Hf Hb Hfail. unfold processItem.
  rewrite (bind_step_run _ _ _ _ _ _ (read_string_run _ _ _ _ Hres)). cbv beta.
  cbn [String.eqb Ascii.eqb Bool.eqb].
  rewrite (bind_step_run _ _ _ _ _ _ (read_string_run _ _ _ _ Hop)). cbv beta.
  rewrite (bind_step_run _ _ _ _ _ _ (read_string_run _ _ _ _ Hf)). cbv beta.
  assert (Hstop : forall B (f : Tx -> M Thrown B),
             bind (lift (Transaction_fromBytes bytes)) f w = mkRun (inl err) w []).
  { intros B f. apply bind_stop_run. unfold lift. now rewrite Hfail. }
  destruct Hsup as [-> | [-> | ->]]; cbn [String.eqb Ascii.eqb Bool.eqb];
    rewrite (bind_step_run _ _ _ _ _ _ (getTransactionBytes_run _ _ _ _ Hb));
    cbv beta; rewrite Hstop; reflexivity.
Qed.

End Malformed.

(** *** The further theorems on the reference platform *)

(** X1 on an object that carries the octets under [transBytes.data]. *)
Lemma buffer_shapes_agree_witness :
  outcome (getTransactionBytes (sdk := Ref.sdk)
             (host := Sample.one
                        (Sample.buffered "sign"
                           (JObj [ ("transBytes",
                                    JObj [ ("type", JStr "Buffer");
                                           ("data", octets [x00; x05]) ]) ])))
             "buffer" 0 0)
  = inr [x00; x05].
Proof.
  apply (buffer_shapes_agree (sdk := Ref.sdk)
           (host := Sample.one
                      (Sample.buffered "sign"
                         (JObj [ ("transBytes",
                                  JObj [ ("type", JStr "Buffer");
                                         ("data", octets [x00; x05]) ]) ])))
           "buffer" 0 0 [x00; x05]
           (JObj [ ("transBytes",
                    JObj [ ("type", JStr "Buffer"); ("data", octets [x00; x05]) ]) ])).
  - discriminate.
  - reflexivity.
  - right. left. split; reflexivity.
Defined.

(** X2 on a buffer parameter that arrives as text. *)
Lemma unusable_buffer_object_witness :
  getTransactionBytes (sdk := Ref.sdk)
    (host := Sample.one (Sample.buffered "sign" (JStr "[0,5]"))) "buffer" 0 0
  = mkRun (inl (NodeOperationError
                  "Invalid buffer object format. Expected object with data array or direct array."))
          0 [CallGetNodeParameter "transactionBuffer" 0].
Proof.
  apply (unusable_buffer_object (sdk := Ref.sdk)
           (host := Sample.one (Sample.buffered "sign" (JStr "[0,5]")))
           "buffer" 0 0 (JStr "[0,5]")).
  - discriminate.
  - reflexivity.
  - exact I.
Defined.

(** X4 on the read of the recipient of a transfer. *)
Lemma item_keeps_to_itself_witness :
  In (CallGetNodeParameter (sdk := Ref.sdk) "recipientId" 0)
     (calls (processItem (sdk := Ref.sdk)
               (host := Sample.one (Ref.transfer "0.0.2002" (number_of_Z 1)))
               "0.0.1001" "302e0202" Ref.client 0 0))
  /\ 0 = 0.
Proof.
  assert (Hin :
    In (CallGetNodeParameter (sdk := Ref.sdk) "recipientId" 0)
       (calls (processItem (sdk := Ref.sdk)
                 (host := Sample.one (Ref.transfer "0.0.2002" (number_of_Z 1)))
                 "0.0.1001" "302e0202" Ref.client 0 0)))
    by (do 2 right; left; reflexivity).
  split; [exact Hin|].
  exact (item_keeps_to_itself (sdk := Ref.sdk)
           (host := Sample.one (Ref.transfer "0.0.2002" (number_of_Z 1)))
           "0.0.1001" "302e0202" Ref.client 0 0 _ Hin).
Defined.

(** X5 on the execution of a transfer. *)
Lemma network_calls_come_from_four_operations_witness :
  getNodeParameter_string
    (Host := Sample.one (Ref.transfer "0.0.2002" (number_of_Z 1))) "resource" 0
  = inr "account"
  \/ getNodeParameter_string
       (Host := Sample.one (Ref.transfer "0.0.2002" (number_of_Z 1))) "resource" 0
     = inr "transaction".
Proof.
  destruct (network_calls_come_from_four_operations (sdk := Ref.sdk)
              (host := Sample.one (Ref.transfer "0.0.2002" (number_of_Z 1)))
              "0.0.1001" "302e0202" Ref.client 0 0
              (CallExecute (sdk := Ref.sdk)
                 (TransferTransaction (sdk := Ref.sdk)
                    [ ("0.0.1001", {| toTinybars := -100000000 |});
                      ("0.0.2002", {| toTinybars := 100000000 |}) ])
                 Ref.client))
    as [[H _] | [H _]].
  - do 4 right. left. reflexivity.
  - reflexivity.
  - left. exact H.
  - right. exact H.
Defined.

(** X6 on a sign item. *)
Lemma signing_is_for_sign_operations_witness :
  getNodeParameter_string
    (Host := Sample.one (Ref.transaction "sign" [x00; x05])) "resource" 0
  = inr "transaction"
  /\ PrivateKey_fromString (Sdk := Ref.sdk) "302e0202" = inr "302e0202".
Proof.
  destruct (signing_is_for_sign_operations (sdk := Ref.sdk)
              (host := Sample.one (Ref.transaction "sign" [x00; x05]))
              "0.0.1001" "302e0202" Ref.client 0 0 ([x05], 0) "302e0202")
    as [Hres [_ [Hkey _]]].
  - do 4 right. left. reflexivity.
  - exact (conj Hres Hkey).
Defined.

(** X7 on a sign-and-submit item. *)
Lemma submitted_transaction_witness :
  getNodeParameter_string
    (Host := Sample.one (Ref.transaction "signAndSubmit" [x00; x05])) "resource" 0
  = inr "transaction".
Proof.
  apply (submitted_transaction (sdk := Ref.sdk)
           (host := Sample.one (Ref.transaction "signAndSubmit" [x00; x05]))
           "0.0.1001" "302e0202" Ref.client 0 0 ([x05], 1) Ref.client).
  do 5 right. left. reflexivity.
Defined.

(** X8 on the record of a sign item. *)
Lemma signed_transaction_reads_back_witness :
  exists signedBytes,
    "AQU=" = Buffer_toString_base64 signedBytes
    /\ forall j w',
         getNodeParameter_string
           (Host := Sample.one (Ref.transaction "sign" [x00; x05])) "transaction" j
         = inr "AQU=" ->
         outcome (getTransactionBytes (sdk := Ref.sdk)
                    (host := Sample.one (Ref.transaction "sign" [x00; x05]))
                    "base64" j w')
         = inr signedBytes.
Proof.
  destruct (signed_transaction_reads_back (sdk := Ref.sdk)
              (host := Sample.one (Ref.transaction "sign" [x00; x05]))
              "0.0.1001" "302e0202" Ref.client 0 0
              [ ("signedTransaction", "AQU=") ] "AQU=")
    as [t [key [signedTx [signedBytes [_ [_ [Hs Hread]]]]]]].
  - reflexivity.
  - left. reflexivity.
  - exists signedBytes. split; [exact Hs | exact Hread].
Defined.

(** X10 on the creation of an account with 5 hbar. *)
Lemma create_returns_generated_keys_witness :
  outcome (processItem (sdk := Ref.sdk)
             (host := Sample.one (Ref.create (number_of_Z 5)))
             "0.0.1001" "302e0202" Ref.client 0 0)
  = inr [ ("newAccountId", "0.0.2002");
          ("newAccountPublicKey", "pub-302e0201");
          ("newAccountPrivateKey", "302e0201") ].
Proof.
  apply (create_returns_generated_keys (sdk := Ref.sdk)
           (host := Sample.one (Ref.create (number_of_Z 5)))
           "0.0.1001" "302e0202" Ref.client 0 0 (number_of_Z 5)
           {| toTinybars := 500000000 |} "302e0201" 0 Ref.response 1 Ref.receipt 1
           "0.0.2002"); reflexivity.
Defined.

(** X11 on a network whose receipt has no account id. *)
Lemma create_without_account_id_fails_witness :
  outcome (processItem (sdk := Sample.sdk_without_account)
             (host := Sample.one (Ref.create (number_of_Z 5)))
             "0.0.1001" "302e0202" Ref.client 0 0)
  = inl (NodeOperationError "Account creation failed: INSUFFICIENT_PAYER_BALANCE")
  /\ In (CallExecute (sdk := Sample.sdk_without_account)
           (AccountCreateTransaction (sdk := Sample.sdk_without_account)
              "pub-302e0201" {| toTinybars := 500000000 |})
           Ref.client)
        (calls (processItem (sdk := Sample.sdk_without_account)
                  (host := Sample.one (Ref.create (number_of_Z 5)))
                  "0.0.1001" "302e0202" Ref.client 0 0)).
Proof.
  apply (create_without_account_id_fails (sdk := Sample.sdk_without_account)
           (host := Sample.one (Ref.create (number_of_Z 5)))
           "0.0.1001" "302e0202" Ref.client 0 0 (number_of_Z 5)
           {| toTinybars := 500000000 |} "302e0201" 0 Ref.response 1
           {| receipt_accountId := None;
              receipt_status := "INSUFFICIENT_PAYER_BALANCE" |} 1); reflexivity.
Defined.

(** X12 on a transfer of 1.5 hbar. *)
Lemma transfer_reports_receipt_status_witness :
  outcome (processItem (sdk := Ref.sdk)
             (host := Sample.one
                        (Ref.transfer "0.0.2002" {| mantissa := 15; scale := 1 |}))
             "0.0.1001" "302e0202" Ref.client 0 0)
  = inr [ ("status", "SUCCESS");
          ("transactionId", "0.0.1001@1700000000.000000001") ].
Proof.
  apply (transfer_reports_receipt_status (sdk := Ref.sdk)
           (host := Sample.one
                      (Ref.transfer "0.0.2002" {| mantissa := 15; scale := 1 |}))
           "0.0.1001" "302e0202" Ref.client 0 0 "0.0.2002"
           {| mantissa := 15; scale := 1 |} {| toTinybars := 150000000 |}
           "0.0.1001" "0.0.2002" Ref.response 1 Ref.receipt 1); reflexivity.
Defined.

(** X13 on the reference host without items. *)
Lemma empty_batch_witness :
  execute (sdk := Ref.sdk) (host := Ref.host (Some Ref.creds) true []) 0
  = mkRun (inr [ [] ]) 0 [CallGetCredentials "hederaApi"].
Proof.
  apply (empty_batch (sdk := Ref.sdk) (host := Ref.host (Some Ref.creds) true [])
           0 "0.0.1001" "302e0202" Ref.client 0).
  - exists Ref.creds. repeat split; try reflexivity; discriminate.
  - reflexivity.
Defined.

(** X14 on a host without credentials and on an account id that does not
    parse. *)
Lemma setup_failure_is_not_isolated_witness :
  execute (sdk := Ref.sdk) (host := Sample.host_without_credentials) 0
  = mkRun (inl (Uncaught (Error "Node does not have any credentials set"))) 0
          [CallGetCredentials "hederaApi"]
  /\ execute (sdk := Ref.sdk)
       (host := Ref.host (Some Sample.creds_malformed) true Ref.batch) 0
     = mkRun (inl (Uncaught (Error "failed to parse entity id"))) 0
             [CallGetCredentials "hederaApi"].
Proof.
  split.
  - apply (proj1 (setup_failure_is_not_isolated (sdk := Ref.sdk)
                    (host := Sample.host_without_credentials) 0)).
    reflexivity.
  - apply (proj2 (setup_failure_is_not_isolated (sdk := Ref.sdk)
                    (host := Ref.host (Some Sample.creds_malformed) true Ref.batch) 0)
             Sample.creds_malformed "zero.zero.1001" "302e0202");
      try reflexivity; discriminate.
Defined.

(** X15 on the reference batch. *)
Lemma continue_mode_runs_in_order_witness :
  calls (execute (sdk := Ref.sdk)
           (host := Ref.host (Some Ref.creds) true Ref.batch) 0)
  = CallGetCredentials "hederaApi"
      :: concat (map calls
                   (item_runs (sdk := Ref.sdk)
                      (host := Ref.host (Some Ref.creds) true Ref.batch)
                      "0.0.1001" "302e0202" Ref.client 3 0 0))
  /\ world_after (execute (sdk := Ref.sdk)
                    (host := Ref.host (Some Ref.creds) true Ref.batch) 0)
     = world_after_runs 0
         (item_runs (sdk := Ref.sdk)
            (host := Ref.host (Some Ref.creds) true Ref.batch)
            "0.0.1001" "302e0202" Ref.client 3 0 0).
Proof.
  apply (continue_mode_runs_in_order (sdk := Ref.sdk)
           (host := Ref.host (Some Ref.creds) true Ref.batch)
           0 "0.0.1001" "302e0202" Ref.client 0).
  - reflexivity.
  - exists Ref.creds. repeat split; try reflexivity; discriminate.
Defined.

(** X16 on the reference batch in fail-fast mode: the third item is never
    read. *)
Lemma fail_fast_stops_at_first_failure_witness :
  calls (execute (sdk := Ref.sdk)
           (host := Ref.host (Some Ref.creds) false Ref.batch) 0)
  = CallGetCredentials "hederaApi"
      :: concat (map calls
                   (firstn 2
                      (item_runs (sdk := Ref.sdk)
                         (host := Ref.host (Some Ref.creds) false Ref.batch)
                         "0.0.1001" "302e0202" Ref.client 3 0 0)))
  /\ world_after (execute (sdk := Ref.sdk)
                    (host := Ref.host (Some Ref.creds) false Ref.batch) 0)
     = 1.
Proof.
  apply (fail_fast_stops_at_first_failure (sdk := Ref.sdk)
           (host := Ref.host (Some Ref.creds) false Ref.batch)
           0 "0.0.1001" "302e0202" Ref.client 0 1
           (processItem (sdk := Ref.sdk)
              (host := Ref.host (Some Ref.creds) false Ref.batch)
              "0.0.1001" "302e0202" Ref.client 1 1)
           (NodeOperationError "Unsupported resource: token")).
  - reflexivity.
  - exists Ref.creds. repeat split; try reflexivity; discriminate.
  - reflexivity.
  - reflexivity.
  - intros j rj Hj. destruct j as [|j]; [|lia].
    intros H. injection H as <-. eexists. reflexivity.
Defined.

(** X17 on a batch of one transfer, for the read of its amount and for the
    execution of its transaction. *)
Lemma batch_keeps_to_its_items_witness :
  0 < 1 /\ Ref.client = Ref.client.
Proof.
  split.
  - apply (batch_keeps_to_its_items (sdk := Ref.sdk)
             (host := Sample.one (Ref.transfer "0.0.2002" {| mantissa := 15; scale := 1 |}))
             0 "0.0.1001" "302e0202" Ref.client 0
             (CallGetNodeParameter (sdk := Ref.sdk) "amount" 0)).
    + exists Ref.creds. repeat split; try reflexivity; discriminate.
    + do 4 right. left. reflexivity.
  - apply (batch_keeps_to_its_items (sdk := Ref.sdk)
             (host := Sample.one (Ref.transfer "0.0.2002" {| mantissa := 15; scale := 1 |}))
             0 "0.0.1001" "302e0202" Ref.client 0
             (CallExecute (sdk := Ref.sdk)
                (TransferTransaction (sdk := Ref.sdk)
                   [ ("0.0.1001", {| toTinybars := -150000000 |});
                     ("0.0.2002", {| toTinybars := 150000000 |}) ])
                Ref.client)).
    + exists Ref.creds. repeat split; try reflexivity; discriminate.
    + do 5 right. left. reflexivity.
Defined.

(** X19 on the read of the amount of a transfer. *)
Lemma reads_are_displayed_witness :
  exists p,
    Description.property "amount" = Some p
    /\ Description.displayed
         (item_value (host := Sample.one (Ref.transfer "0.0.2002" (number_of_Z 1))) 0)
         p = true.
Proof.
  apply (reads_are_displayed (sdk := Ref.sdk)
           (host := Sample.one (Ref.transfer "0.0.2002" (number_of_Z 1)))
           "0.0.1001" "302e0202" Ref.client 0 0 "amount" 0).
  - intros key v Hkey Hread. cbn in Hkey.
    destruct Hkey as [<- | [<- | [<- | [<- | []]]]];
      cbn in Hread; try discriminate Hread; injection Hread as <-; cbn; auto.
  - do 3 right. left. reflexivity.
Defined.

(** X20 on four items the first version knows. *)
Lemma agrees_with_first_version_witness :
  outcome (execute_v1 (sdk := Ref.sdk)
             (host := Ref.host (Some Ref.creds) true Sample.mixed) 0)
  = outcome (execute (sdk := Ref.sdk)
               (host := Ref.host (Some Ref.creds) true Sample.mixed) 0)
  /\ world_after (execute_v1 (sdk := Ref.sdk)
                    (host := Ref.host (Some Ref.creds) true Sample.mixed) 0)
     = world_after (execute (sdk := Ref.sdk)
                      (host := Ref.host (Some Ref.creds) true Sample.mixed) 0).
Proof.
  apply (agrees_with_first_version (sdk := Ref.sdk)
           (host := Ref.host (Some Ref.creds) true Sample.mixed) 0).
  intros i Hi.
  destruct i as [|[|[|[|i]]]].
  - left. discriminate.
  - left. discriminate.
  - right. repeat split; discriminate.
  - left. discriminate.
  - cbn in Hi. lia.
Defined.

(** X21 on an array with numbers below and above the range of an octet. *)
Lemma out_of_range_octets_wrap_witness :
  outcome (getTransactionBytes (sdk := Ref.sdk)
             (host := Sample.one
                        (Sample.buffered "sign"
                           (JObj [ ("data",
                                    JArr [ JNum (number_of_Z 256);
                                           JNum (number_of_Z (-1));
                                           JNum (number_of_Z 5) ]) ])))
             "buffer" 0 0)
  = inr [x00; xff; x05].
Proof.
  apply (out_of_range_octets_wrap (sdk := Ref.sdk)
           (host := Sample.one
                      (Sample.buffered "sign"
                         (JObj [ ("data",
                                  JArr [ JNum (number_of_Z 256);
                                         JNum (number_of_Z (-1));
                                         JNum (number_of_Z 5) ]) ])))
           "buffer" 0 0 [256; -1; 5]%Z
           [ ("data", JArr [ JNum (number_of_Z 256);
                             JNum (number_of_Z (-1));
                             JNum (number_of_Z 5) ]) ]).
  - discriminate.
  - reflexivity.
  - reflexivity.
Defined.

(** X22 on a submit item without bytes. *)
Lemma undecodable_bytes_go_nowhere_witness :
  processItem (sdk := Ref.sdk) (host := Sample.one (Ref.transaction "submit" []))
    "0.0.1001" "302e0202" Ref.client 0 0
  = mkRun (inl (Error "malformed transaction")) 0
      [ CallGetNodeParameter "resource" 0;
        CallGetNodeParameter "transactionOperation" 0;
        CallGetNodeParameter "transactionFormat" 0;
        CallGetNodeParameter "transaction" 0 ].
Proof.
  apply (undecodable_bytes_go_nowhere (sdk := Ref.sdk)
           (host := Sample.one (Ref.transaction "submit" []))
           "0.0.1001" "302e0202" Ref.client 0 0 "submit" "base64" []).
  - reflexivity.
  - reflexivity.
  - right. left. reflexivity.
  - reflexivity.
  - reflexivity.
  - reflexivity.
Defined.
